(** * Expression nodes of the datatable core: type resolution, grouping modes,
      the COUNT reduction and the node factory (c/expr/base_expr.cc).

    The development is a shallow embedding: every class of base_expr.cc is a
    constructor of [pexpr], every method a function over it, the two rule
    tables are finite maps filled by the loops of [init_binops] and
    [init_unops], and exceptions are values of [result]. *)

From Stdlib Require Import ZArith NArith String List Lia Bool.
From stdpp Require Import base option list gmap strings.

Open Scope N_scope.

(** ** Machine integers *)

Module Mach.

(** [size_t] is a 64-bit unsigned integer: values are kept in [N] and every
    operation that may leave the range reduces modulo [2^64]. *)
Definition size_modulus : N := 2 ^ 64.

Definition size_wrap (n : N) : N := n mod size_modulus.

(** [size_t(-1)] *)
Definition size_minus_one : N := size_modulus - 1.

Definition size_shl (n k : N) : N := size_wrap (N.shiftl n k).

Definition size_add (a b : N) : N := size_wrap (a + b).

(** two's complement reduction of an integer to [w] bits, signed *)
Definition wrap_signed (w : Z) (z : Z) : Z :=
  ((z + 2 ^ (w - 1)) mod 2 ^ w - 2 ^ (w - 1))%Z.

Definition wrap32 : Z -> Z := wrap_signed 32.
Definition wrap64 : Z -> Z := wrap_signed 64.

(** [static_cast<int64_t>] of a [size_t] *)
Definition to_int64 (n : N) : Z := wrap64 (Z.of_N n).

(** [static_cast<size_t>] of an [int64_t] *)
Definition to_size (z : Z) : N := Z.to_N (z mod 2 ^ 64)%Z.

Definition int64_range (z : Z) : Prop := (- 2 ^ 63 <= z < 2 ^ 63)%Z.

End Mach.

Import Mach.

(** ** Storage types and operator codes *)

(** Modelled from the spec: the [SType] enumeration is declared in types.h,
    which is not part of this file.  The members and their order are those
    of the spec's data model (BOOL < INT8 < INT16 < INT32 < INT64 < FLOAT32 <
    FLOAT64 < STR32 < STR64 < OBJECT); [stype_code] is the underlying
    [uint8_t] value, increasing along that order. *)
Inductive SType : Set :=
  | BOOL | INT8 | INT16 | INT32 | INT64 | FLOAT32 | FLOAT64
  | STR32 | STR64 | OBJECT.

Definition stype_code (s : SType) : N :=
  match s with
  | BOOL => 1 | INT8 => 2 | INT16 => 3 | INT32 => 4 | INT64 => 5
  | FLOAT32 => 6 | FLOAT64 => 7 | STR32 => 11 | STR64 => 12 | OBJECT => 21
  end.

#[global] Instance SType_eq_dec : EqDecision SType.
Proof. solve_decision. Defined.

(** [std::max] on two storage types: [(a < b) ? b : a], the comparison being
    that of the underlying values. *)
Definition std_max (a b : SType) : SType :=
  if stype_code a <? stype_code b then b else a.

(** Modelled from the spec: the declared total order of the data model, as the
    position of a storage type in the enumeration, and [promote], the
    "widest wins" maximum under it. *)
Definition declared_order : list SType :=
  [BOOL; INT8; INT16; INT32; INT64; FLOAT32; FLOAT64; STR32; STR64; OBJECT].

Fixpoint position (s : SType) (l : list SType) : nat :=
  match l with
  | [] => O
  | x :: l' => if decide (x = s) then O else S (position s l')
  end.

Definition rank (s : SType) : nat := position s declared_order.

Definition stype_le (a b : SType) : Prop := (rank a <= rank b)%nat.

Definition promote (a b : SType) : SType :=
  if (rank a <? rank b)%nat then b else a.

(** Modelled from the spec: the [biop] enumeration ([biop.t]) is declared in
    expr/base_expr.h, which is not part of this file.  The members are those
    named by [init_binops]; the codes are 1..17, which is what
    [binop_names.resize(18)] leaves room for. *)
Module biop.

Inductive t : Set :=
  | PLUS | MINUS | MULTIPLY | DIVIDE | INT_DIVIDE | POWER | MODULO
  | LOGICAL_AND | LOGICAL_OR | LEFT_SHIFT | RIGHT_SHIFT
  | REL_EQ | REL_NE | REL_GT | REL_LT | REL_GE | REL_LE.

(** [static_cast<size_t>(opcode)] *)
Definition code (op : t) : N :=
  match op with
  | PLUS => 1 | MINUS => 2 | MULTIPLY => 3 | DIVIDE => 4 | INT_DIVIDE => 5
  | POWER => 6 | MODULO => 7 | LOGICAL_AND => 8 | LOGICAL_OR => 9
  | LEFT_SHIFT => 10 | RIGHT_SHIFT => 11 | REL_EQ => 12 | REL_NE => 13
  | REL_GT => 14 | REL_LT => 15 | REL_GE => 16 | REL_LE => 17
  end.

#[global] Instance eq_dec : EqDecision t.
Proof. solve_decision. Defined.

End biop.

(** Modelled from the spec: the [unop] enumeration ([unop.t]), declared in
    expr/base_expr.h as well; [LEN] is the last member
    ([unop_names.resize(1 + id(unop::LEN))]). *)
Module unop.

Inductive t : Set :=
  | ISNA | MINUS | PLUS | INVERT | ABS | EXP | LOGE | LOG10 | LEN.

(** [static_cast<size_t>(opcode)] *)
Definition code (op : t) : N :=
  match op with
  | ISNA => 1 | MINUS => 2 | PLUS => 3 | INVERT => 4 | ABS => 5
  | EXP => 6 | LOGE => 7 | LOG10 => 8 | LEN => 9
  end.

#[global] Instance eq_dec : EqDecision t.
Proof. solve_decision. Defined.

End unop.

(** Modelled from the spec: [GroupbyMode] (declared outside this file) with
    the two members the file uses, ordered PerGroup < PerRow by their
    [uint8_t] values. *)
Inductive GroupbyMode : Set := GtoONE | GtoALL.

Definition mode_code (m : GroupbyMode) : N :=
  match m with GtoONE => 1 | GtoALL => 3 end.

#[global] Instance GroupbyMode_eq_dec : EqDecision GroupbyMode.
Proof. solve_decision. Defined.

(** [static_cast<GroupbyMode>(std::max(lmode, rmode))] on the two
    [static_cast<uint8_t>] values: [std::max] returns one of its arguments,
    so the cast back gives the mode that argument came from. *)
Definition mode_max (l r : GroupbyMode) : GroupbyMode :=
  if mode_code l <? mode_code r then r else l.

(** ** Python objects, exceptions *)

(** Modelled from the spec: a [py::robj] (Python utilities, not part of this
    file) as far as the file inspects it: an int, a string (the two forms of
    a column selector), a [py::base_expr] object, identified by its address,
    or anything else. *)
Inductive robj : Set :=
  | PyInt (z : Z)
  | PyStr (s : string)
  | PyBaseExpr (addr : N)
  | PyOther.

Definition is_int (o : robj) : bool :=
  match o with PyInt _ => true | _ => false end.

Definition is_string (o : robj) : bool :=
  match o with PyStr _ => true | _ => false end.

(** What is streamed into an exception with [<<]. *)
Inductive msg_item : Set :=
  | MStr (s : string)
  | MInt (z : Z)
  | MSize (n : N)
  | MSType (s : SType)
  | MTypeObj (o : robj).

Definition message := list msg_item.

(** [ExternalError] is an exception thrown by code outside this file, whose
    kind is decided there; [AssertionError] a failed [xassert] (assertions
    enabled); [UndefinedBehaviour] marks a null dereference or an access out
    of bounds, on which C++ defines no behaviour. *)
Inductive exception : Set :=
  | TypeError (msg : message)
  | ValueError (msg : message)
  | AssertionError
  | ExternalError
  | UndefinedBehaviour.

Inductive result (A : Type) : Type :=
  | Ok (a : A)
  | Raise (e : exception).

Arguments Ok {A} a.
Arguments Raise {A} e.

Definition bind {A B} (r : result A) (k : A -> result B) : result B :=
  match r with
  | Ok a => k a
  | Raise e => Raise e
  end.

Notation "x <- r ;;; k" := (bind r (fun x => k))
  (at level 100, r at next level, right associativity).

Definition is_TypeError {A} (r : result A) : Prop :=
  match r with Raise (TypeError _) => True | _ => False end.

Definition is_ValueError {A} (r : result A) : Prop :=
  match r with Raise (ValueError _) => True | _ => False end.

(** Modelled from the spec: [_obj::to_size_t] and [_obj::to_int64_strict]
    (Python utilities, not part of this file) return the value of an int that
    fits the type; what they throw otherwise is theirs ([ExternalError]). *)
Definition to_size_t (o : robj) : result N :=
  match o with
  | PyInt z => if ((0 <=? z) && (z <? 2 ^ 64))%Z then Ok (Z.to_N z)
               else Raise ExternalError
  | _ => Raise ExternalError
  end.

Definition to_int64_strict (o : robj) : result Z :=
  match o with
  | PyInt z => if ((- 2 ^ 63 <=? z) && (z <? 2 ^ 63))%Z then Ok z
               else Raise ExternalError
  | _ => Raise ExternalError
  end.

(** ** The rule tables *)

Definition styvec := list SType.

Definition integer_stypes : styvec := [INT8; INT16; INT32; INT64].
Definition numeric_stypes : styvec :=
  [BOOL; INT8; INT16; INT32; INT64; FLOAT32; FLOAT64].
Definition string_types : styvec := [STR32; STR64].
Definition all_stypes : styvec :=
  [BOOL; INT8; INT16; INT32; INT64; FLOAT32; FLOAT64; STR32; STR64].

(** A range-based [for] over a vector, threading the table being filled. *)
Definition for_each {A S : Type} (v : list A) (body : A -> S -> S) (s : S) : S :=
  foldl (fun acc a => body a acc) s v.

(** The two overloads of [id] for binary operators: the code itself, and the
    key [(opcode << 16) + (st1 << 8) + st2] of the rule table. *)
Definition id_biop (opcode : N) : N := opcode.

Definition id_biop_stypes (opcode : N) (st1 st2 : SType) : N :=
  size_add (size_add (size_shl opcode 16) (size_shl (stype_code st1) 8))
           (stype_code st2).

Abbreviation rules := (gmap N SType).

Definition numeric_binop_rules (st1 st2 : SType) (m : rules) : rules :=
  let stm := std_max st1 st2 in
  let m := <[id_biop_stypes (biop.code biop.PLUS) st1 st2 := stm]> m in
  let m := <[id_biop_stypes (biop.code biop.MINUS) st1 st2 := stm]> m in
  let m := <[id_biop_stypes (biop.code biop.MULTIPLY) st1 st2 := stm]> m in
  let m := <[id_biop_stypes (biop.code biop.POWER) st1 st2 := stm]> m in
  let m := <[id_biop_stypes (biop.code biop.DIVIDE) st1 st2 := FLOAT64]> m in
  let m := <[id_biop_stypes (biop.code biop.REL_EQ) st1 st2 := BOOL]> m in
  let m := <[id_biop_stypes (biop.code biop.REL_NE) st1 st2 := BOOL]> m in
  let m := <[id_biop_stypes (biop.code biop.REL_LT) st1 st2 := BOOL]> m in
  let m := <[id_biop_stypes (biop.code biop.REL_GT) st1 st2 := BOOL]> m in
  let m := <[id_biop_stypes (biop.code biop.REL_LE) st1 st2 := BOOL]> m in
  <[id_biop_stypes (biop.code biop.REL_GE) st1 st2 := BOOL]> m.

Definition integer_binop_rules (st1 st2 : SType) (m : rules) : rules :=
  let stm := std_max st1 st2 in
  let m := <[id_biop_stypes (biop.code biop.INT_DIVIDE) st1 st2 := stm]> m in
  let m := <[id_biop_stypes (biop.code biop.MODULO) st1 st2 := stm]> m in
  let m := <[id_biop_stypes (biop.code biop.LEFT_SHIFT) st1 st2 := stm]> m in
  <[id_biop_stypes (biop.code biop.RIGHT_SHIFT) st1 st2 := stm]> m.

Definition string_binop_rules (st1 st2 : SType) (m : rules) : rules :=
  let m := <[id_biop_stypes (biop.code biop.REL_EQ) st1 st2 := BOOL]> m in
  <[id_biop_stypes (biop.code biop.REL_NE) st1 st2 := BOOL]> m.

(** The part of [init_binops] that fills [binop_rules], run on the table [m]
    it finds. *)
Definition init_binop_rules (m : rules) : rules :=
  let m := for_each numeric_stypes (fun st1 =>
             for_each numeric_stypes (fun st2 => numeric_binop_rules st1 st2)) m in
  let m := for_each integer_stypes (fun st1 =>
             for_each integer_stypes (fun st2 => integer_binop_rules st1 st2)) m in
  let m := for_each string_types (fun st1 =>
             for_each string_types (fun st2 => string_binop_rules st1 st2)) m in
  let m := <[id_biop_stypes (biop.code biop.LOGICAL_AND) BOOL BOOL := BOOL]> m in
  <[id_biop_stypes (biop.code biop.LOGICAL_OR) BOOL BOOL := BOOL]> m.

(** The part of [init_binops] that fills [binop_names]: [resize(18)] on the
    empty vector, then one assignment per operator. *)
Definition set_name (i : N) (s : string) (v : list string) : list string :=
  <[N.to_nat i := s]> v.

Definition init_binop_names : list string :=
  let v := replicate 18 EmptyString in
  let v := set_name (id_biop (biop.code biop.PLUS)) "+" v in
  let v := set_name (id_biop (biop.code biop.MINUS)) "-" v in
  let v := set_name (id_biop (biop.code biop.MULTIPLY)) "*" v in
  let v := set_name (id_biop (biop.code biop.DIVIDE)) "/" v in
  let v := set_name (id_biop (biop.code biop.INT_DIVIDE)) "//" v in
  let v := set_name (id_biop (biop.code biop.POWER)) "**" v in
  let v := set_name (id_biop (biop.code biop.MODULO)) "%" v in
  let v := set_name (id_biop (biop.code biop.LOGICAL_AND)) "&" v in
  let v := set_name (id_biop (biop.code biop.LOGICAL_OR)) "|" v in
  let v := set_name (id_biop (biop.code biop.LEFT_SHIFT)) "<<" v in
  let v := set_name (id_biop (biop.code biop.RIGHT_SHIFT)) ">>" v in
  let v := set_name (id_biop (biop.code biop.REL_EQ)) "==" v in
  let v := set_name (id_biop (biop.code biop.REL_NE)) "!=" v in
  let v := set_name (id_biop (biop.code biop.REL_GT)) ">" v in
  let v := set_name (id_biop (biop.code biop.REL_LT)) "<" v in
  let v := set_name (id_biop (biop.code biop.REL_GE)) ">=" v in
  set_name (id_biop (biop.code biop.REL_LE)) "<=" v.

(** The static tables after [init_methods_and_getsets] has run. *)
Definition binop_rules : rules := init_binop_rules ∅.
Definition binop_names : list string := init_binop_names.

(** The two overloads of [id] for unary operators. *)
Definition id_unop (opcode : N) : N := opcode.

Definition id_unop_stype (opcode : N) (st1 : SType) : N :=
  size_add (size_shl opcode 8) (stype_code st1).

Definition numeric_unop_rules (st : SType) (m : rules) : rules :=
  let m := <[id_unop_stype (unop.code unop.MINUS) st := st]> m in
  let m := <[id_unop_stype (unop.code unop.PLUS) st := st]> m in
  let m := <[id_unop_stype (unop.code unop.ABS) st := st]> m in
  let m := <[id_unop_stype (unop.code unop.EXP) st := FLOAT64]> m in
  let m := <[id_unop_stype (unop.code unop.LOGE) st := FLOAT64]> m in
  <[id_unop_stype (unop.code unop.LOG10) st := FLOAT64]> m.

Definition init_unop_rules (m : rules) : rules :=
  let m := for_each all_stypes
             (fun st => <[id_unop_stype (unop.code unop.ISNA) st := BOOL]>) m in
  let m := for_each integer_stypes
             (fun st => <[id_unop_stype (unop.code unop.INVERT) st := st]>) m in
  let m := for_each numeric_stypes numeric_unop_rules m in
  let m := <[id_unop_stype (unop.code unop.MINUS) BOOL := INT8]> m in
  let m := <[id_unop_stype (unop.code unop.PLUS) BOOL := INT8]> m in
  let m := <[id_unop_stype (unop.code unop.ABS) BOOL := INT8]> m in
  let m := <[id_unop_stype (unop.code unop.INVERT) BOOL := BOOL]> m in
  let m := <[id_unop_stype (unop.code unop.LEN) STR32 := INT32]> m in
  <[id_unop_stype (unop.code unop.LEN) STR64 := INT64]> m.

Definition init_unop_names : list string :=
  let v := replicate (N.to_nat (1 + id_unop (unop.code unop.LEN))) EmptyString in
  let v := set_name (id_unop (unop.code unop.ISNA)) "isna" v in
  let v := set_name (id_unop (unop.code unop.MINUS)) "-" v in
  let v := set_name (id_unop (unop.code unop.PLUS)) "+" v in
  let v := set_name (id_unop (unop.code unop.INVERT)) "~" v in
  let v := set_name (id_unop (unop.code unop.ABS)) "abs" v in
  let v := set_name (id_unop (unop.code unop.EXP)) "exp" v in
  let v := set_name (id_unop (unop.code unop.LOGE)) "log" v in
  let v := set_name (id_unop (unop.code unop.LOG10)) "log10" v in
  set_name (id_unop (unop.code unop.LEN)) "len" v.

Definition unop_rules : rules := init_unop_rules ∅.
Definition unop_names : list string := init_unop_names.

(** The lookup both [resolve] methods perform on their table:
    [count(key) == 0] throws, otherwise [at(key)]. *)
Definition binop_rule (binop_code : N) (lhs_stype rhs_stype : SType) : result SType :=
  let triple := id_biop_stypes binop_code lhs_stype rhs_stype in
  match binop_rules !! triple with
  | None =>
      match binop_names !! N.to_nat binop_code with
      | Some name =>
          Raise (TypeError [MStr "Binary operator `"; MStr name;
                            MStr "` cannot be applied to columns with stypes `";
                            MSType lhs_stype; MStr "` and `"; MSType rhs_stype;
                            MStr "`"])
      | None => Raise UndefinedBehaviour
      end
  | Some st => Ok st
  end.

Definition unop_rule (unop_code : N) (arg_stype : SType) : result SType :=
  let op_id := id_unop_stype unop_code arg_stype in
  match unop_rules !! op_id with
  | None =>
      match unop_names !! N.to_nat unop_code with
      | Some name =>
          Raise (TypeError [MStr "Unary operator `"; MStr name;
                            MStr "` cannot be applied to a column with stype `";
                            MSType arg_stype; MStr "`"])
      | None => Raise UndefinedBehaviour
      end
  | Some st => Ok st
  end.

(** ** Columns, frames and the workframe

    These classes are declared outside this file; the model keeps what the
    methods below read. *)

(** Modelled from the spec: a [RowIndex] is a row selection; [None] is the
    absent selection, which is false under [if (ri)]. *)
Definition RowIndex := option (list N).

(** Modelled from the spec: a [Column] is a typed sequence of values with a
    storage type and a row selection of its own. *)
Record Column : Type := mkColumn {
  col_stype : SType;
  col_data : list Z;
  col_rowindex : RowIndex
}.

(** Modelled from the spec: [shallowcopy] shares the data, and installs the
    row index it is given when it is given one. *)
Definition shallowcopy (c : Column) : Column := c.

Definition shallowcopy_with (c : Column) (ri : RowIndex) : Column :=
  mkColumn (col_stype c) (col_data c) ri.

(** Modelled from the spec: [Column::new_data_column(stype, nrows)] allocates
    a column of [nrows] cells; the cells start at 0 here, and the code below
    assigns every one of them before the column is returned. *)
Definition new_data_column (st : SType) (nrows : N) : Column :=
  mkColumn st (replicate (N.to_nat nrows) 0%Z) None.

(** Modelled from the spec: a frame is a table of named columns. *)
Record DataTable : Type := mkDataTable {
  dt_columns : list (string * Column)
}.

Definition ncols (dt : DataTable) : N := N.of_nat (length (dt_columns dt)).

(** [dt->columns[i]] *)
Definition columns_at (dt : DataTable) (i : N) : result Column :=
  match dt_columns dt !! N.to_nat i with
  | Some (_, c) => Ok c
  | None => Raise UndefinedBehaviour
  end.

Fixpoint name_index (name : string) (l : list (string * Column)) : option nat :=
  match l with
  | [] => None
  | (n, _) :: l' =>
      if String.eqb n name then Some O else S <$> name_index name l'
  end.

(** Modelled from the spec: [DataTable::xcolindex] is the frame's name to
    index lookup; an unknown name is a [ValueError] raised by that
    collaborator (the text of its message is not this file's). *)
Definition xcolindex (dt : DataTable) (sel : robj) : result N :=
  match sel with
  | PyStr name =>
      match name_index name (dt_columns dt) with
      | Some i => Ok (N.of_nat i)
      | None => Raise (ValueError [MTypeObj sel])
      end
  | _ => Raise ExternalError
  end.

(** Modelled from the spec: a grouping is a number of groups and the
    monotonic array of group boundary offsets ([int32_t]). *)
Record Groupby : Type := mkGroupby {
  ngroups : N;
  offsets_r : list Z
}.

(** Modelled from the spec: the by-node knows the grouping key columns;
    [has_group_column] is membership among them. *)
Record by_node : Type := mk_by_node {
  group_columns : list N
}.

Definition has_group_column (b : by_node) (i : N) : bool :=
  bool_decide (i ∈ group_columns b).

(** Modelled from the spec: the [workframe] holds the source frames, each
    with its row selection, the optional grouping (its by-node and its
    [Groupby]) and the number of rows. *)
Record workframe : Type := mkWorkframe {
  wf_frames : list (DataTable * RowIndex);
  has_groupby : bool;
  get_by_node : by_node;
  get_groupby : Groupby;
  nrows : N
}.

Definition nframes (wf : workframe) : N := N.of_nat (length (wf_frames wf)).

Definition get_datatable (wf : workframe) (frame_id : N) : result DataTable :=
  match wf_frames wf !! N.to_nat frame_id with
  | Some (dt, _) => Ok dt
  | None => Raise UndefinedBehaviour
  end.

Definition get_rowindex (wf : workframe) (frame_id : N) : result RowIndex :=
  match wf_frames wf !! N.to_nat frame_id with
  | Some (_, ri) => Ok ri
  | None => Raise UndefinedBehaviour
  end.

(** ** Expression nodes *)

(** A [pexpr] is a [std::unique_ptr<base_expr>]: null, or owning a node of
    one of the classes.  [ExprReduce] and [ExprStringFn] are the two classes
    the factory builds that are defined in other files. *)
Inductive pexpr : Type :=
  | null_expr
  | ExprColumn (frame_id : N) (col_id : N) (col_selector : robj)
  | ExprBinaryop (lhs rhs : pexpr) (binop_code : N)
  | ExprLiteral (col : Column)
  | ExprUnaryop (arg : pexpr) (unop_code : N)
  | ExprCast (arg : pexpr) (stype : SType)
  | ExprReduceNullary (opcode : N)
  | ExprReduce (arg : pexpr) (opcode : N)
  | ExprStringFn (opcode : N) (arg : pexpr) (params : robj).

(** The constructors of the classes of this file. *)
Definition expr_column (dfid : N) (col : robj) : pexpr :=
  ExprColumn dfid size_minus_one col.

Definition expr_binaryop (opcode : N) (l r : pexpr) : pexpr :=
  ExprBinaryop l r opcode.

Definition expr_unaryop (opcode : N) (a : pexpr) : pexpr :=
  ExprUnaryop a opcode.

Definition expr_cast (a : pexpr) (s : SType) : pexpr := ExprCast a s.

Definition expr_reduce_nullary (op : N) : pexpr := ExprReduceNullary op.

(** [is_column_expr], [is_negated_expr] and [get_negated_expr]: the defaults
    of [base_expr] and the overrides of [expr_column] and [expr_unaryop].
    [get_negated_expr] moves the operand out of the node, which keeps a null
    pointer in its place. *)
Definition is_column_expr (e : pexpr) : bool :=
  match e with
  | ExprColumn _ _ _ => true
  | _ => false
  end.



(** A [colptr] is a [std::unique_ptr<Column>]: null, or owning a column. *)
Definition colptr : Type := option Column.

(** What the rest of the library provides to the methods of this file: the
    virtual methods of the two foreign node classes (acting on the fields of
    the node), the element-wise kernels, which are handed the raw pointers
    of their operands ([lhs_res.get()]) and return a raw pointer, the
    product of row indices and the conversion of Python values to a
    column. *)
Class Externals : Type := {
  reduce_resolve : workframe -> pexpr -> N -> pexpr * result SType;
  reduce_get_groupby_mode : workframe -> pexpr -> N -> result GroupbyMode;
  reduce_evaluate_eager : workframe -> pexpr -> N -> result colptr;
  string_fn_resolve : workframe -> N -> pexpr -> robj -> pexpr * result SType;
  string_fn_get_groupby_mode :
    workframe -> N -> pexpr -> robj -> result GroupbyMode;
  string_fn_evaluate_eager :
    workframe -> N -> pexpr -> robj -> result colptr;
  binaryop : N -> colptr -> colptr -> result colptr;
  unaryop : N -> colptr -> result colptr;
  cast : Column -> SType -> result colptr;
  _product : RowIndex -> RowIndex -> RowIndex;
  from_pylist : list robj -> N -> result Column;
  expr_string_fn : N -> pexpr -> robj -> result pexpr
}.

(** *** expr_column *)

(** [get_col_index] on the fields of the node: the new value of [col_id] and
    what the call returns or throws. *)
Definition get_col_index (wf : workframe) (frame_id col_id : N)
    (col_selector : robj) : N * result N :=
  if col_id =? size_minus_one then
    if nframes wf <=? frame_id then
      (col_id, Raise (ValueError
         [MStr "Column expression references a non-existing join frame"]))
    else
      match get_datatable wf frame_id with
      | Raise e => (col_id, Raise e)
      | Ok dt =>
          let assigned : result N :=
            if is_int col_selector then
              icolid <- to_int64_strict col_selector ;;;
              let incols := to_int64 (ncols dt) in
              if ((icolid <? wrap64 (- incols)) || (incols <=? icolid))%Z then
                Raise (ValueError
                  [MStr "Column index "; MInt icolid; MStr " is invalid for a Frame with "; MInt incols; MStr " column";
                   MStr (if (incols =? 1)%Z then EmptyString else "s")])
              else
                let icolid := if (icolid <? 0)%Z then wrap64 (icolid + incols)
                              else icolid in
                Ok (to_size icolid)
            else if is_string col_selector then
              xcolindex dt col_selector
            else Ok col_id
          in
          match assigned with
          | Raise e => (col_id, Raise e)
          | Ok col_id' =>
              if col_id' <? ncols dt then (col_id', Ok col_id')
              else (col_id', Raise AssertionError)
          end
      end
  else (col_id, Ok col_id).

Definition expr_column_resolve (wf : workframe) (frame_id col_id : N)
    (col_selector : robj) : pexpr * result SType :=
  let '(col_id', r) := get_col_index wf frame_id col_id col_selector in
  (ExprColumn frame_id col_id' col_selector,
   i <- r ;;;
   dt <- get_datatable wf frame_id ;;;
   c <- columns_at dt i ;;;
   Ok (col_stype c)).

Definition expr_column_get_groupby_mode (wf : workframe) (frame_id col_id : N)
    : GroupbyMode :=
  if (frame_id =? 0) && has_groupby wf
     && has_group_column (get_by_node wf) col_id
  then GtoONE else GtoALL.

(** *** expr_reduce_nullary *)

(** The loop [for (i = 0; i < ng; ++i) d_res[i] = offsets[i+1] - offsets[i]]
    run from [i] for [n] rounds; the subtraction is that of [int32_t]. *)
Fixpoint count_loop (offsets : list Z) (i n : nat) (d_res : list Z)
    : result (list Z) :=
  match n with
  | O => Ok d_res
  | S n' =>
      match offsets !! S i, offsets !! i with
      | Some hi, Some lo =>
          count_loop offsets (S i) n' (<[i := wrap32 (hi - lo)]> d_res)
      | _, _ => Raise UndefinedBehaviour
      end
  end.

Definition expr_reduce_nullary_resolve (wf : workframe) : SType := INT64.

Definition expr_reduce_nullary_evaluate_eager (wf : workframe) (opcode : N)
    : result colptr :=
  if opcode =? 0 then
    if has_groupby wf then
      let grpby := get_groupby wf in
      let ng := ngroups grpby in
      let offsets := offsets_r grpby in
      let res := new_data_column INT32 ng in
      d_res <- count_loop offsets 0 (N.to_nat ng) (col_data res) ;;;
      Ok (Some (mkColumn (col_stype res) d_res (col_rowindex res)))
    else
      let res := new_data_column INT64 1 in
      let d_res := <[O := to_int64 (nrows wf)]> (col_data res) in
      Ok (Some (mkColumn (col_stype res) d_res (col_rowindex res)))
  else Ok None.

Section Methods.

Context {ext : Externals}.

(** [resolve], dispatched on the class of the node: the node after the call
    (only [col_id] of a column node ever changes) and the storage type
    returned or the exception thrown. *)
Fixpoint resolve (wf : workframe) (e : pexpr) : pexpr * result SType :=
  match e with
  | null_expr => (null_expr, Raise UndefinedBehaviour)
  | ExprColumn frame_id col_id col_selector =>
      expr_column_resolve wf frame_id col_id col_selector
  | ExprBinaryop lhs rhs binop_code =>
      let '(lhs', rl) := resolve wf lhs in
      match rl with
      | Raise ex => (ExprBinaryop lhs' rhs binop_code, Raise ex)
      | Ok lhs_stype =>
          let '(rhs', rr) := resolve wf rhs in
          (ExprBinaryop lhs' rhs' binop_code,
           rhs_stype <- rr ;;; binop_rule binop_code lhs_stype rhs_stype)
      end
  | ExprLiteral col => (ExprLiteral col, Ok (col_stype col))
  | ExprUnaryop arg unop_code =>
      let '(arg', ra) := resolve wf arg in
      (ExprUnaryop arg' unop_code,
       arg_stype <- ra ;;; unop_rule unop_code arg_stype)
  | ExprCast arg stype =>
      let '(arg', ra) := resolve wf arg in
      (ExprCast arg' stype, _ <- ra ;;; Ok stype)
  | ExprReduceNullary opcode =>
      (ExprReduceNullary opcode, Ok (expr_reduce_nullary_resolve wf))
  | ExprReduce arg opcode =>
      let '(arg', r) := reduce_resolve wf arg opcode in
      (ExprReduce arg' opcode, r)
  | ExprStringFn opcode arg params =>
      let '(arg', r) := string_fn_resolve wf opcode arg params in
      (ExprStringFn opcode arg' params, r)
  end.

(** [get_groupby_mode] is a [const] method: it changes no node.  The
    binary, unary and cast nodes call the method through their operand
    pointers with no null test ([lhs->], [rhs->], [arg->]): on a null operand
    the call is a null dereference, and the operands of a binary node are
    asked left to right. *)
Fixpoint get_groupby_mode (wf : workframe) (e : pexpr) : result GroupbyMode :=
  match e with
  | null_expr => Raise UndefinedBehaviour
  | ExprColumn frame_id col_id _ =>
      Ok (expr_column_get_groupby_mode wf frame_id col_id)
  | ExprBinaryop lhs rhs _ =>
      lmode <- get_groupby_mode wf lhs ;;;
      rmode <- get_groupby_mode wf rhs ;;;
      Ok (mode_max lmode rmode)
  | ExprLiteral _ => Ok GtoONE
  | ExprUnaryop arg _ => get_groupby_mode wf arg
  | ExprCast arg _ => get_groupby_mode wf arg
  | ExprReduceNullary _ => Ok GtoONE
  | ExprReduce arg opcode => reduce_get_groupby_mode wf arg opcode
  | ExprStringFn opcode arg params =>
      string_fn_get_groupby_mode wf opcode arg params
  end.

Definition expr_column_evaluate_eager (wf : workframe) (frame_id col_id : N)
    : result Column :=
  dt <- get_datatable wf frame_id ;;;
  rcol <- columns_at dt col_id ;;;
  dt_ri <- get_rowindex wf frame_id ;;;
  let col_ri := col_rowindex rcol in
  if bool_decide (is_Some dt_ri) then
    Ok (shallowcopy_with rcol (_product dt_ri col_ri))
  else Ok (shallowcopy rcol).

(** [evaluate_eager].  The nodes of a column reference and of a literal wrap
    the copy they make; a binary and a unary node hand the raw pointers of
    their operands' results to the kernel, null or not; a cast calls
    [arg_col->cast] on the result of its operand, a null dereference when
    that result is null; the nullary reduction returns the null pointer it
    started from when its opcode is not COUNT. *)
Fixpoint evaluate_eager (wf : workframe) (e : pexpr) : result colptr :=
  match e with
  | null_expr => Raise UndefinedBehaviour
  | ExprColumn frame_id col_id _ =>
      res <- expr_column_evaluate_eager wf frame_id col_id ;;;
      Ok (Some res)
  | ExprBinaryop lhs rhs binop_code =>
      lhs_res <- evaluate_eager wf lhs ;;;
      rhs_res <- evaluate_eager wf rhs ;;;
      binaryop binop_code lhs_res rhs_res
  | ExprLiteral col => Ok (Some (shallowcopy col))
  | ExprUnaryop arg unop_code =>
      arg_res <- evaluate_eager wf arg ;;;
      unaryop unop_code arg_res
  | ExprCast arg stype =>
      arg_col <- evaluate_eager wf arg ;;;
      match arg_col with
      | Some c => cast c stype
      | None => Raise UndefinedBehaviour
      end
  | ExprReduceNullary opcode =>
      expr_reduce_nullary_evaluate_eager wf opcode
  | ExprReduce arg opcode => reduce_evaluate_eager wf arg opcode
  | ExprStringFn opcode arg params =>
      string_fn_evaluate_eager wf opcode arg params
  end.

End Methods.

(** ** The node factory: py::base_expr *)

(** Modelled from the spec: [exprCode] (declared in expr/base_expr.h) names
    the node kinds; the codes follow the order of the [switch]. *)
Inductive exprCode : Set :=
  | COL | BINOP | LITERAL | UNOP | CAST | UNREDUCE | NUREDUCE | STRINGFN.

Definition exprCode_code (c : exprCode) : N :=
  match c with
  | COL => 1 | BINOP => 2 | LITERAL => 3 | UNOP => 4 | CAST => 5
  | UNREDUCE => 6 | NUREDUCE => 7 | STRINGFN => 8
  end.

Definition all_exprCodes : list exprCode :=
  [COL; BINOP; LITERAL; UNOP; CAST; UNREDUCE; NUREDUCE; STRINGFN].

(** The [case] label a [switch (opcode)] jumps to, if any. *)
Definition switch_case (opcode : N) : option exprCode :=
  List.find (fun c => exprCode_code c =? opcode) all_exprCodes.

(** [static_cast<SType>] of a [size_t]: the value is cut to the [uint8_t]
    underneath.  The enumeration is declared in another file and [SType]
    here has its ten members only: for a value that names none of them the
    program goes on with a storage type that has no counterpart in [SType],
    and the model stops there with [UndefinedBehaviour]. *)
Definition stype_of_size (n : N) : result SType :=
  match List.find (fun s => stype_code s =? n mod 256) declared_order with
  | Some s => Ok s
  | None => Raise UndefinedBehaviour
  end.

(** The Python heap as far as the factory touches it: the [expr] field of
    every [py::base_expr] object, by address. *)
Abbreviation heap := (gmap N pexpr).

(** Computations that update the heap and return or throw; the heap is kept
    when an exception unwinds. *)
Definition factory (A : Type) : Type := heap -> heap * result A.

Definition fbind {A B} (m : factory A) (k : A -> factory B) : factory B :=
  fun h => let '(h', r) := m h in
           match r with
           | Ok a => k a h'
           | Raise e => (h', Raise e)
           end.

Definition lift {A} (r : result A) : factory A := fun h => (h, r).

Notation "x <~ m ;;; k" := (fbind m (fun x => k))
  (at level 100, m at next level, right associativity).

Definition check_args_count (va : list robj) (n : N) : result unit :=
  if N.of_nat (length va) =? n then Ok tt
  else Raise (TypeError [MStr "Expected "; MSize n;
                         MStr " additional arguments, but received ";
                         MSize (N.of_nat (length va))]).

(** [va[i]] *)
Definition va_at (va : list robj) (i : nat) : result robj :=
  match va !! i with
  | Some o => Ok o
  | None => Raise UndefinedBehaviour
  end.

(** [py::base_expr::release] *)
Definition release (addr : N) : factory pexpr :=
  fun h => match h !! addr with
           | Some ptr => (<[addr := null_expr]> h, Ok ptr)
           | None => (h, Raise UndefinedBehaviour)
           end.

Definition to_base_expr (arg : robj) : factory pexpr :=
  match arg with
  | PyBaseExpr v => release v
  | _ => lift (Raise (TypeError [MStr "Expected a base_expr object, but got ";
                                 MTypeObj arg]))
  end.

(** [to_base_expr(va[i])] *)
Definition base_expr_arg (va : list robj) (i : nat) : factory pexpr :=
  match va_at va i with
  | Ok o => to_base_expr o
  | Raise e => lift (Raise e)
  end.

Definition xassert (b : bool) : result unit :=
  if b then Ok tt else Raise AssertionError.

Section Factory.

Context {ext : Externals}.

(** [expr_literal::expr_literal]: a list of one value made a column. *)
Definition expr_literal (v : robj) : result pexpr :=
  col <- from_pylist [v] 0 ;;; Ok (ExprLiteral col).

(** The body of the [switch]: the node built, or null when no [case]
    matches. *)
Definition build (opcode : N) (va : list robj) : factory pexpr :=
  match switch_case opcode with
  | Some COL =>
      _ <~ lift (check_args_count va 2) ;;;
      dfid <~ lift (o <- va_at va 0 ;;; to_size_t o) ;;;
      col <~ lift (va_at va 1) ;;;
      lift (Ok (expr_column dfid col))
  | Some BINOP =>
      _ <~ lift (check_args_count va 3) ;;;
      binop_code <~ lift (o <- va_at va 0 ;;; to_size_t o) ;;;
      lhs <~ base_expr_arg va 1 ;;;
      rhs <~ base_expr_arg va 2 ;;;
      lift (Ok (expr_binaryop binop_code lhs rhs))
  | Some LITERAL =>
      _ <~ lift (check_args_count va 1) ;;;
      lift (o <- va_at va 0 ;;; expr_literal o)
  | Some UNOP =>
      _ <~ lift (check_args_count va 2) ;;;
      unop_code <~ lift (o <- va_at va 0 ;;; to_size_t o) ;;;
      arg <~ base_expr_arg va 1 ;;;
      lift (Ok (expr_unaryop unop_code arg))
  | Some CAST =>
      _ <~ lift (check_args_count va 2) ;;;
      arg <~ base_expr_arg va 0 ;;;
      stype <~ lift (o <- va_at va 1 ;;; n <- to_size_t o ;;; stype_of_size n) ;;;
      lift (Ok (expr_cast arg stype))
  | Some UNREDUCE =>
      _ <~ lift (check_args_count va 2) ;;;
      op <~ lift (o <- va_at va 0 ;;; to_size_t o) ;;;
      arg <~ base_expr_arg va 1 ;;;
      lift (Ok (ExprReduce arg op))
  | Some NUREDUCE =>
      _ <~ lift (check_args_count va 1) ;;;
      op <~ lift (o <- va_at va 0 ;;; to_size_t o) ;;;
      _ <~ lift (xassert (op =? 0)) ;;;
      lift (Ok (expr_reduce_nullary op))
  | Some STRINGFN =>
      _ <~ lift (check_args_count va 3) ;;;
      op <~ lift (o <- va_at va 0 ;;; to_size_t o) ;;;
      arg <~ base_expr_arg va 1 ;;;
      params <~ lift (va_at va 2) ;;;
      lift (expr_string_fn op arg params)
  | None => lift (Ok null_expr)
  end.

(** [m__init__] of the object at [self], called with [args[0]] and the
    variadic arguments [va]. *)
Definition m__init__ (self : N) (args0 : robj) (va : list robj) : factory unit :=
  fun h =>
    let h := <[self := null_expr]> h in
    (opcode <~ lift (to_size_t args0) ;;;
     e <~ build opcode va ;;;
     fun h => (<[self := e]> h, Ok tt)) h.

End Factory.

(** * Closed forms, stated categories and sample inputs *)

(** ** The binary rule table in closed form *)

Definition both_in (cat : styvec) (s1 s2 : SType) : bool :=
  bool_decide (s1 ∈ cat) && bool_decide (s2 ∈ cat).

Definition binop_rule_table (op : biop.t) (s1 s2 : SType) : option SType :=
  match op with
  | biop.PLUS | biop.MINUS | biop.MULTIPLY | biop.POWER =>
      if both_in numeric_stypes s1 s2 then Some (std_max s1 s2) else None
  | biop.DIVIDE =>
      if both_in numeric_stypes s1 s2 then Some FLOAT64 else None
  | biop.INT_DIVIDE | biop.MODULO | biop.LEFT_SHIFT | biop.RIGHT_SHIFT =>
      if both_in integer_stypes s1 s2 then Some (std_max s1 s2) else None
  | biop.REL_EQ | biop.REL_NE =>
      if both_in numeric_stypes s1 s2 || both_in string_types s1 s2
      then Some BOOL else None
  | biop.REL_LT | biop.REL_GT | biop.REL_LE | biop.REL_GE =>
      if both_in numeric_stypes s1 s2 then Some BOOL else None
  | biop.LOGICAL_AND | biop.LOGICAL_OR =>
      if bool_decide (s1 = BOOL) && bool_decide (s2 = BOOL)
      then Some BOOL else None
  end.

Definition unop_rule_table (op : unop.t) (s : SType) : option SType :=
  match op with
  | unop.ISNA => if bool_decide (s ∈ all_stypes) then Some BOOL else None
  | unop.INVERT =>
      if bool_decide (s = BOOL) then Some BOOL
      else if bool_decide (s ∈ integer_stypes) then Some s else None
  | unop.MINUS | unop.PLUS | unop.ABS =>
      if bool_decide (s = BOOL) then Some INT8
      else if bool_decide (s ∈ numeric_stypes) then Some s else None
  | unop.EXP | unop.LOGE | unop.LOG10 =>
      if bool_decide (s ∈ numeric_stypes) then Some FLOAT64 else None
  | unop.LEN =>
      match s with STR32 => Some INT32 | STR64 => Some INT64 | _ => None end
  end.

(** The two tables, evaluated. *)
Definition binop_rules_value : rules := Eval vm_compute in binop_rules.
Definition unop_rules_value : rules := Eval vm_compute in unop_rules.

(** A decidable closed proposition, by evaluation; in particular membership
    of a given storage type in a given vector. *)
Ltac by_evaluation := cbv zeta; apply (bool_decide_unpack _); vm_compute; exact I.
Ltac in_styvec := by_evaluation.

(** An instance of [Externals] on which every collaborator throws; enough to
    run the methods of this file on trees of this file's own classes. *)
Definition stub_externals : Externals := {|
  reduce_resolve := fun _ arg _ => (arg, Raise ExternalError);
  reduce_get_groupby_mode := fun _ _ _ => Raise ExternalError;
  reduce_evaluate_eager := fun _ _ _ => Raise ExternalError;
  string_fn_resolve := fun _ _ arg _ => (arg, Raise ExternalError);
  string_fn_get_groupby_mode := fun _ _ _ _ => Raise ExternalError;
  string_fn_evaluate_eager := fun _ _ _ _ => Raise ExternalError;
  binaryop := fun _ _ _ => Raise ExternalError;
  unaryop := fun _ _ => Raise ExternalError;
  cast := fun _ _ => Raise ExternalError;
  _product := fun a _ => a;
  from_pylist := fun _ _ => Raise ExternalError;
  expr_string_fn := fun _ _ _ => Raise ExternalError
|}.

(** Sample inputs: a literal node of a given storage type, and a workframe
    without frames or grouping. *)
Definition literal_of (s : SType) : pexpr := ExprLiteral (mkColumn s [1%Z] None).

Definition empty_workframe : workframe :=
  mkWorkframe [] false (mk_by_node []) (mkGroupby 0 [0%Z]) 0.

(** The operators whose result is the wider operand, with the operand
    category [init_binops] enters them for. *)
Definition promoting_category (op : biop.t) : option styvec :=
  match op with
  | biop.PLUS | biop.MINUS | biop.MULTIPLY | biop.POWER => Some numeric_stypes
  | biop.INT_DIVIDE | biop.MODULO | biop.LEFT_SHIFT | biop.RIGHT_SHIFT =>
      Some integer_stypes
  | _ => None
  end.

(** The same, following the words of the contract: integer division and
    modulo among numeric operands, the shifts among integer operands. *)
Definition stated_category (op : biop.t) : option styvec :=
  match op with
  | biop.PLUS | biop.MINUS | biop.MULTIPLY | biop.POWER
  | biop.INT_DIVIDE | biop.MODULO => Some numeric_stypes
  | biop.LEFT_SHIFT | biop.RIGHT_SHIFT => Some integer_stypes
  | _ => None
  end.

(** The sizes of the groups a boundary array delimits: the differences of
    consecutive offsets. *)
Fixpoint group_sizes (offsets : list Z) : list Z :=
  match offsets with
  | lo :: (hi :: _) as rest => (hi - lo)%Z :: group_sizes rest
  | _ => []
  end.

(** Sample workframes: one frame-less workframe of seven rows, and one
    grouped into three groups by the boundaries 0, 3, 7, 10. *)
Definition seven_rows : workframe :=
  mkWorkframe [] false (mk_by_node []) (mkGroupby 0 [0%Z]) 7.

Definition three_groups : workframe :=
  mkWorkframe [] true (mk_by_node []) (mkGroupby 3 [0; 3; 7; 10]%Z) 10.

(** Modelled from the spec: a grouping of [ngroups] groups carries
    [ngroups + 1] boundary offsets, each a non-negative [int32_t]. *)
Definition valid_groupby (g : Groupby) : Prop :=
  length (offsets_r g) = S (N.to_nat (ngroups g))
  ∧ Forall (fun o => (0 <= o < 2 ^ 31)%Z) (offsets_r g).

(** [expr_reduce_nullary] with the COUNT opcode. *)
Definition COUNT : N := 0.

(** The column a Python-style index designates in a frame of [n] columns:
    a negative index counts from the end. *)
Definition python_index (i n : Z) : N := Z.to_N (if (i <? 0)%Z then i + n else i)%Z.

(** The two messages of [get_col_index]. *)
Definition no_such_frame : message :=
  [MStr "Column expression references a non-existing join frame"].

Definition invalid_index (icolid incols : Z) : message :=
  [MStr "Column index "; MInt icolid;
   MStr " is invalid for a Frame with "; MInt incols; MStr " column";
   MStr (if (incols =? 1)%Z then EmptyString else "s")].

(** A sample frame of five columns, and a workframe over it grouped by its
    last column. *)
Definition five_columns : DataTable :=
  mkDataTable [("a", mkColumn INT32 [1; 2]%Z None);
               ("b", mkColumn INT64 [3; 4]%Z None);
               ("c", mkColumn FLOAT64 [5; 6]%Z None);
               ("d", mkColumn STR32 [7; 8]%Z None);
               ("e", mkColumn BOOL [0; 1]%Z None)].

Definition five_column_workframe : workframe :=
  mkWorkframe [(five_columns, None)] true (mk_by_node [4])
              (mkGroupby 2 [0; 1; 2]%Z) 2.

(** The grouping modes are ordered PerGroup < PerRow; [more_general] is their
    maximum: PerRow as soon as one of the two is PerRow. *)
Definition mode_le (a b : GroupbyMode) : Prop := mode_code a <= mode_code b.

Definition more_general (a b : GroupbyMode) : GroupbyMode :=
  match a, b with
  | GtoONE, GtoONE => GtoONE
  | _, _ => GtoALL
  end.


(** The two node classes defined in other files resolve idempotently: what
    the methods of this file can rely on when such a node sits in a tree. *)
Definition foreign_idempotent (ext : Externals) : Prop :=
  (forall wf arg op arg1 r1,
     reduce_resolve wf arg op = (arg1, r1) ->
     reduce_resolve wf arg1 op = (arg1, r1))
  ∧ (forall wf op arg params arg1 r1,
       string_fn_resolve wf op arg params = (arg1, r1) ->
       string_fn_resolve wf op arg1 params = (arg1, r1)).

(** A sample tree: the last column of frame 0 plus a negated INT32
    literal. *)
Definition last_column_plus_literal : pexpr :=
  expr_binaryop (biop.code biop.PLUS)
    (expr_column 0 (PyInt (-1)))
    (expr_unaryop (unop.code unop.MINUS) (literal_of INT32)).

(** The number of variadic arguments each node kind is built from, and the
    positions among them that hold subexpressions. *)
Definition arity (c : exprCode) : N :=
  match c with
  | COL => 2 | BINOP => 3 | LITERAL => 1 | UNOP => 2 | CAST => 2
  | UNREDUCE => 2 | NUREDUCE => 1 | STRINGFN => 3
  end.

Definition subexpr_positions (c : exprCode) : list nat :=
  match c with
  | BINOP => [1; 2]%nat
  | UNOP | UNREDUCE | STRINGFN => [1%nat]
  | CAST => [0%nat]
  | COL | LITERAL | NUREDUCE => []
  end.

Definition is_base_expr (o : robj) : bool :=
  match o with PyBaseExpr _ => true | _ => false end.

(** The first argument in a subexpression position that is no
    [py::base_expr] object. *)
Definition first_offender (c : exprCode) (va : list robj) : option robj :=
  head (filter (fun o => is_base_expr o = false)
               (omap (fun p => va !! p) (subexpr_positions c))).

(** The two messages of the factory. *)
Definition count_mismatch (expected received : N) : message :=
  [MStr "Expected "; MSize expected;
   MStr " additional arguments, but received "; MSize received].

Definition not_a_base_expr (o : robj) : message :=
  [MStr "Expected a base_expr object, but got "; MTypeObj o].

(** Every [py::base_expr] object among the arguments is a live object. *)
Definition allocated (h : heap) (va : list robj) : Prop :=
  forall a, PyBaseExpr a ∈ va -> is_Some (h !! a).

(** The operator code, first argument of every kind with a subexpression
    but the cast, converts to a [size_t]. *)
Definition leading_code_converts (c : exprCode) (va : list robj) : Prop :=
  c ≠ CAST -> exists o n, va !! 0%nat = Some o ∧ to_size_t o = Ok n.

(** One argument in a subexpression position, given what [first_offender]
    says of the positions from it on. *)
Ltac offender v Hoff :=
  destruct v as [?z|?s|?a|]; cbn in Hoff; try discriminate Hoff;
  try (injection Hoff as <-; reflexivity).

(** A sample heap: one [py::base_expr] object at address 10, holding a
    literal. *)
Definition one_literal_heap : heap := {[ 10 := literal_of INT32 ]}.

(** The column a fresh reference would be resolved to, when its resolution
    succeeds. *)
Definition referenced_column (wf : workframe) (frame_id : N) (sel : robj)
    : option N :=
  match get_col_index wf frame_id size_minus_one sel with
  | (_, Ok c) => Some c
  | (_, Raise _) => None
  end.

(** The cache of a column reference is either still [size_t(-1)] or holds the
    column the reference resolves to. *)
Definition cache_consistent (wf : workframe) (frame_id col_id : N) (sel : robj)
    : Prop :=
  col_id = size_minus_one ∨ referenced_column wf frame_id sel = Some col_id.

(** The operators of the rule tables by family. *)
Definition relational_ops : list biop.t :=
  [biop.REL_EQ; biop.REL_NE; biop.REL_LT; biop.REL_GT; biop.REL_LE; biop.REL_GE].

Definition logical_ops : list biop.t := [biop.LOGICAL_AND; biop.LOGICAL_OR].

Definition float_functions : list unop.t := [unop.EXP; unop.LOGE; unop.LOG10].

(** The operator a [size_t] is the code of, if any. *)
Definition all_biops : list biop.t :=
  [biop.PLUS; biop.MINUS; biop.MULTIPLY; biop.DIVIDE; biop.INT_DIVIDE;
   biop.POWER; biop.MODULO; biop.LOGICAL_AND; biop.LOGICAL_OR;
   biop.LEFT_SHIFT; biop.RIGHT_SHIFT; biop.REL_EQ; biop.REL_NE; biop.REL_GT;
   biop.REL_LT; biop.REL_GE; biop.REL_LE].

Definition all_unops : list unop.t :=
  [unop.ISNA; unop.MINUS; unop.PLUS; unop.INVERT; unop.ABS; unop.EXP;
   unop.LOGE; unop.LOG10; unop.LEN].

Definition biop_of_code (c : N) : option biop.t :=
  List.find (fun op => biop.code op =? c) all_biops.

Definition unop_of_code (c : N) : option unop.t :=
  List.find (fun op => unop.code op =? c) all_unops.

Definition stype_of_code (c : N) : option SType :=
  List.find (fun s => stype_code s =? c) declared_order.

(** A key of the binary table read back as an operator code and two
    storage type codes, and a key of the unary table as an operator code and
    one storage type code. *)
Definition binop_key_known (k : N) : bool :=
  match biop_of_code (k / 65536),
        stype_of_code ((k / 256) mod 256), stype_of_code (k mod 256) with
  | Some _, Some _, Some _ => true
  | _, _, _ => false
  end.

Definition unop_key_known (k : N) : bool :=
  match unop_of_code (k / 256), stype_of_code (k mod 256) with
  | Some _, Some _ => true
  | _, _ => false
  end.

(** The nodes that apply an operator of one of the rule tables. *)
Definition is_operator_node (e : pexpr) : bool :=
  match e with
  | ExprBinaryop _ _ _ | ExprUnaryop _ _ => true
  | _ => false
  end.

(** A binary operator code with high bits set: PLUS shifted out of the key. *)
Definition plus_beyond_48_bits : N := 2 ^ 48 + biop.code biop.PLUS.

(** Trees built from the classes of this file only, without null
    pointers. *)
Fixpoint own_classes (e : pexpr) : bool :=
  match e with
  | null_expr | ExprReduce _ _ | ExprStringFn _ _ _ => false
  | ExprColumn _ _ _ | ExprLiteral _ | ExprReduceNullary _ => true
  | ExprBinaryop lhs rhs _ => own_classes lhs && own_classes rhs
  | ExprUnaryop arg _ | ExprCast arg _ => own_classes arg
  end.

(** A tree with every column cache put back to [size_t(-1)]: what the
    factory built, whatever [resolve] did since. *)
Fixpoint erase_cache (e : pexpr) : pexpr :=
  match e with
  | null_expr => null_expr
  | ExprColumn frame_id _ sel => ExprColumn frame_id size_minus_one sel
  | ExprBinaryop lhs rhs code => ExprBinaryop (erase_cache lhs) (erase_cache rhs) code
  | ExprLiteral col => ExprLiteral col
  | ExprUnaryop arg code => ExprUnaryop (erase_cache arg) code
  | ExprCast arg st => ExprCast (erase_cache arg) st
  | ExprReduceNullary opcode => ExprReduceNullary opcode
  | ExprReduce arg opcode => ExprReduce (erase_cache arg) opcode
  | ExprStringFn opcode arg params => ExprStringFn opcode (erase_cache arg) params
  end.

(** The column references of a tree, each as its frame id and the column
    index it holds, left to right. *)
Fixpoint column_refs (e : pexpr) : list (N * N) :=
  match e with
  | ExprColumn frame_id col_id _ => [(frame_id, col_id)]
  | ExprBinaryop lhs rhs _ => column_refs lhs ++ column_refs rhs
  | ExprUnaryop arg _ | ExprCast arg _
  | ExprReduce arg _ | ExprStringFn _ arg _ => column_refs arg
  | null_expr | ExprLiteral _ | ExprReduceNullary _ => []
  end.

(** A reference that holds a grouping key column of frame 0 under an active
    grouping, and a reference that holds a column of its frame. *)
Definition keyed (wf : workframe) (ref : N * N) : Prop :=
  ref.1 = 0 ∧ has_groupby wf = true ∧ ref.2 ∈ group_columns (get_by_node wf).

Definition in_frame (wf : workframe) (ref : N * N) : Prop :=
  exists dt, get_datatable wf ref.1 = Ok dt ∧ ref.2 < ncols dt.

(** A reference as the constructor leaves it, or one that holds a column of
    its frame. *)
Definition cache_in_frame (wf : workframe) (ref : N * N) : Prop :=
  ref.2 = size_minus_one ∨ in_frame wf ref.

(** The exceptions a column lookup throws by design: the ValueError of an
    invalid reference, or what the conversion of the selector throws. *)
Definition lookup_error (ex : exception) : Prop :=
  ex = ExternalError ∨ exists msg, ex = ValueError msg.

(** A sample tree over the five-column frame: the key column "e" compared
    with the sum of column "a" and a literal. *)
Definition key_equals_sum : pexpr :=
  expr_binaryop (biop.code biop.REL_EQ)
    (expr_column 0 (PyStr "e"))
    (expr_binaryop (biop.code biop.PLUS)
       (expr_column 0 (PyInt 0)) (literal_of INT64)).

(** The tree [key_equals_sum] after [resolve] on the five-column frame. *)
Definition key_equals_sum_resolved : pexpr :=
  expr_binaryop (biop.code biop.REL_EQ)
    (ExprColumn 0 4 (PyStr "e"))
    (expr_binaryop (biop.code biop.PLUS)
       (ExprColumn 0 0 (PyInt 0)) (literal_of INT64)).

(** A sample workframe whose only frame carries a row selection. *)
Definition selected_workframe : workframe :=
  mkWorkframe [(five_columns, Some [1])] false (mk_by_node [])
              (mkGroupby 0 [0%Z]) 1.

(** What a factory computation may do to the heap when called on the
    arguments [va]: leave an object as it was, or empty it; and it leaves as
    they were the objects that are no [py::base_expr] argument. *)
Definition only_releases {A : Type} (va : list robj) (m : factory A) : Prop :=
  forall h h' r, m h = (h', r) ->
    forall a, (PyBaseExpr a ∉ va -> h' !! a = h !! a)
              ∧ (h' !! a = h !! a ∨ h' !! a = Some null_expr).

(** The sum of a column of integers. *)
Definition sum_Z (l : list Z) : Z := foldr Z.add 0%Z l.

(** * Columns of Python objects (c/column_pyobj.cc) *)

Module PyObjectColumn.

(** A [PyObjectColumn] as [cast_into] reads it: the row count and the buffer
    seen as an array of [PyObject*], a null pointer being [None] and an
    object its address.  [alloc_size()] is the size of that buffer. *)
Record t : Type := mk {
  nrows : Z;
  elements : list (option N)
}.

(** The reference count ([ob_refcnt], a [Py_ssize_t]) of every live
    object. *)
Abbreviation refcounts := (gmap N Z).

Definition stype (c : t) : SType := OBJECT.

(** [Py_XINCREF]: nothing on a null pointer, [ob_refcnt++] otherwise. *)
Definition Py_XINCREF (o : option N) (rc : refcounts) : result refcounts :=
  match o with
  | None => Ok rc
  | Some a =>
      match rc !! a with
      | Some n => Ok (<[a := wrap64 (n + 1)]> rc)
      | None => Raise UndefinedBehaviour
      end
  end.

(** [for (i = 0; i < nrows; ++i) Py_XINCREF(src_data[i])], from [i] for [n]
    rounds. *)
Fixpoint incref_loop (src_data : list (option N)) (i n : nat) (rc : refcounts)
    : result refcounts :=
  match n with
  | O => Ok rc
  | S n' =>
      match src_data !! i with
      | Some o =>
          rc' <- Py_XINCREF o rc ;;; incref_loop src_data (S i) n' rc'
      | None => Raise UndefinedBehaviour
      end
  end.

(** [memcpy(dst, src, size of src)] on two buffers of pointers. *)
Definition memcpy (dst src : list (option N)) : result (list (option N)) :=
  if (length src <=? length dst)%nat
  then Ok (src ++ drop (length src) dst)
  else Raise UndefinedBehaviour.

Definition cast_into (this target : t) (rc : refcounts)
    : result (t * refcounts) :=
  let src_data := elements this in
  rc' <- incref_loop src_data 0 (Z.to_nat (nrows this)) rc ;;;
  data <- memcpy (elements target) (elements this) ;;;
  Ok (mk (nrows target) data, rc').

(** The number of times the object at [a] occurs in an array. *)
Definition occurrences (a : N) (l : list (option N)) : Z :=
  Z.of_nat (length (filter (fun o => o = Some a) l)).

(** The conditions under which [cast_into] is defined: the rows are in the
    source buffer, the target buffer is as large, the objects of the rows
    are live, and no count is within [nrows] of the largest [Py_ssize_t]. *)
Definition castable (this target : t) (rc : refcounts) : Prop :=
  (0 <= nrows this <= Z.of_nat (length (elements this)))%Z
  ∧ (length (elements this) <= length (elements target))%nat
  ∧ (forall a, Some a ∈ elements this -> is_Some (rc !! a))
  ∧ (forall a n, rc !! a = Some n -> (0 <= n ∧ n + nrows this < 2 ^ 63)%Z).

End PyObjectColumn.

(** A sample column of three rows, two of them the same object, and the
    counts of its two objects. *)
Definition three_objects : PyObjectColumn.t :=
  PyObjectColumn.mk 3 [Some 20; None; Some 20; Some 21].

Definition blank_target : PyObjectColumn.t :=
  PyObjectColumn.mk 3 [None; None; None; None; Some 5].

Definition two_counts : PyObjectColumn.refcounts := {[ 20 := 1%Z; 21 := 7%Z ]}.

(** * Properties *)

(** ** The rule tables *)


(** The tables are evaluated once; every lookup below reads the evaluated
    table. *)
Lemma binop_rules_evaluated : binop_rules = binop_rules_value.
Proof. by_evaluation. Qed.

Lemma unop_rules_evaluated : unop_rules = unop_rules_value.
Proof. by_evaluation. Qed.

Lemma binop_rules_lookup (op : biop.t) (s1 s2 : SType) :
  binop_rules !! id_biop_stypes (biop.code op) s1 s2 = binop_rule_table op s1 s2.
Proof.
  rewrite binop_rules_evaluated.
  destruct op, s1, s2; vm_compute; reflexivity.
Qed.

Lemma unop_rules_lookup (op : unop.t) (s : SType) :
  unop_rules !! id_unop_stype (unop.code op) s = unop_rule_table op s.
Proof.
  rewrite unop_rules_evaluated.
  destruct op, s; vm_compute; reflexivity.
Qed.

Lemma binop_names_defined (op : biop.t) :
  is_Some (binop_names !! N.to_nat (biop.code op)).
Proof. destruct op; vm_compute; eauto. Qed.

Lemma unop_names_defined (op : unop.t) :
  is_Some (unop_names !! N.to_nat (unop.code op)).
Proof. destruct op; vm_compute; eauto. Qed.

(** What [binop_rule] answers, read off the closed form of the table. *)
Lemma binop_rule_present (op : biop.t) (s1 s2 st : SType) :
  binop_rule_table op s1 s2 = Some st ->
  binop_rule (biop.code op) s1 s2 = Ok st.
Proof.
  intros Ht. unfold binop_rule. rewrite binop_rules_lookup, Ht. reflexivity.
Qed.

Lemma binop_rule_absent (op : biop.t) (s1 s2 : SType) :
  binop_rule_table op s1 s2 = None ->
  is_TypeError (binop_rule (biop.code op) s1 s2).
Proof.
  intros Ht. unfold binop_rule. rewrite binop_rules_lookup, Ht.
  destruct (binop_names_defined op) as [name ->]. exact I.
Qed.

Lemma unop_rule_present (op : unop.t) (s st : SType) :
  unop_rule_table op s = Some st -> unop_rule (unop.code op) s = Ok st.
Proof.
  intros Ht. unfold unop_rule. rewrite unop_rules_lookup, Ht. reflexivity.
Qed.

Lemma unop_rule_absent (op : unop.t) (s : SType) :
  unop_rule_table op s = None -> is_TypeError (unop_rule (unop.code op) s).
Proof.
  intros Ht. unfold unop_rule. rewrite unop_rules_lookup, Ht.
  destruct (unop_names_defined op) as [name ->]. exact I.
Qed.

Lemma both_in_true (cat : styvec) (s1 s2 : SType) :
  s1 ∈ cat -> s2 ∈ cat -> both_in cat s1 s2 = true.
Proof.
  intros H1 H2. unfold both_in. by rewrite !bool_decide_eq_true_2.
Qed.

Lemma both_in_false (cat : styvec) (s1 s2 : SType) :
  ¬ (s1 ∈ cat ∧ s2 ∈ cat) -> both_in cat s1 s2 = false.
Proof.
  intros Hn. unfold both_in.
  destruct (decide (s1 ∈ cat)) as [H1|H1].
  - rewrite (bool_decide_eq_false_2 (s2 ∈ cat)); [apply andb_false_r | tauto].
  - by rewrite (bool_decide_eq_false_2 (s1 ∈ cat)).
Qed.

(** [std::max] on the codes is the maximum of the declared order. *)
Lemma std_max_promote (a b : SType) : std_max a b = promote a b.
Proof. destruct a, b; reflexivity. Qed.

Lemma promote_upper_bound (a b : SType) :
  stype_le a (promote a b) ∧ stype_le b (promote a b) ∧
  (promote a b = a ∨ promote a b = b).
Proof.
  unfold promote, stype_le.
  destruct (Nat.ltb_spec (rank a) (rank b)); repeat split; auto; lia.
Qed.

Section ResolveOperators.

Context {ext : Externals}.

Lemma resolve_binaryop (wf : workframe) (code : N) (l r l' r' : pexpr)
    (s1 s2 : SType) :
  resolve wf l = (l', Ok s1) -> resolve wf r = (r', Ok s2) ->
  resolve wf (expr_binaryop code l r)
  = (expr_binaryop code l' r', binop_rule code s1 s2).
Proof. intros Hl Hr. simpl. rewrite Hl, Hr. reflexivity. Qed.

Lemma resolve_unaryop (wf : workframe) (code : N) (a a' : pexpr) (s : SType) :
  resolve wf a = (a', Ok s) ->
  resolve wf (expr_unaryop code a) = (expr_unaryop code a', unop_rule code s).
Proof. intros Ha. simpl. rewrite Ha. reflexivity. Qed.

Lemma resolve_literal_of (wf : workframe) (s : SType) :
  resolve wf (literal_of s) = (literal_of s, Ok s).
Proof. reflexivity. Qed.

End ResolveOperators.

Lemma promoting_table (op : biop.t) (cat : styvec) (s1 s2 : SType) :
  promoting_category op = Some cat ->
  binop_rule_table op s1 s2
  = if both_in cat s1 s2 then Some (promote s1 s2) else None.
Proof.
  intros Hc. rewrite <- std_max_promote.
  destruct op; simpl in Hc; try discriminate; injection Hc as <-; reflexivity.
Qed.

(** C1 (amended): PLUS, MINUS, MULTIPLY and POWER map every pair of numeric
    storage types, and INT_DIVIDE, MODULO, LEFT_SHIFT and RIGHT_SHIFT every
    pair of integer storage types (INT8..INT64), to the maximum of the two
    under the declared order; for a pair outside the operator's category the
    table has no entry and [resolve] raises TypeError. *)
Theorem promotion_within_category {ext : Externals} (wf : workframe)
    (op : biop.t) (cat : styvec) (l r l' r' : pexpr) (s1 s2 : SType) :
  promoting_category op = Some cat ->
  resolve wf l = (l', Ok s1) ->
  resolve wf r = (r', Ok s2) ->
  (s1 ∈ cat ∧ s2 ∈ cat ->
     binop_rules !! id_biop_stypes (biop.code op) s1 s2 = Some (promote s1 s2)
     ∧ resolve wf (expr_binaryop (biop.code op) l r)
       = (expr_binaryop (biop.code op) l' r', Ok (promote s1 s2)))
  ∧ (¬ (s1 ∈ cat ∧ s2 ∈ cat) ->
     binop_rules !! id_biop_stypes (biop.code op) s1 s2 = None
     ∧ is_TypeError (resolve wf (expr_binaryop (biop.code op) l r)).2).
Proof.
  intros Hc Hl Hr.
  rewrite (resolve_binaryop _ _ _ _ _ _ _ _ Hl Hr), binop_rules_lookup.
  pose proof (promoting_table op cat s1 s2 Hc) as Ht.
  split.
  - intros [H1 H2]. rewrite (both_in_true _ _ _ H1 H2) in Ht.
    split; [exact Ht | f_equal; by apply binop_rule_present].
  - intros Hn. rewrite (both_in_false _ _ _ Hn) in Ht.
    split; [exact Ht | by apply binop_rule_absent].
Qed.

Lemma promotion_within_category_witness :
  promoting_category biop.MODULO = Some integer_stypes
  ∧ resolve (ext := stub_externals) empty_workframe (literal_of INT16)
    = (literal_of INT16, Ok INT16)
  ∧ resolve (ext := stub_externals) empty_workframe (literal_of INT64)
    = (literal_of INT64, Ok INT64)
  ∧ (INT16 ∈ integer_stypes ∧ INT64 ∈ integer_stypes)
  ∧ resolve (ext := stub_externals) empty_workframe
      (expr_binaryop (biop.code biop.MODULO) (literal_of INT16) (literal_of INT64))
    = (expr_binaryop (biop.code biop.MODULO) (literal_of INT16) (literal_of INT64),
       Ok INT64).
Proof.
  assert (Hin : INT16 ∈ integer_stypes ∧ INT64 ∈ integer_stypes)
    by (split; in_styvec).
  do 3 (split; [reflexivity|]). split; [exact Hin|].
  exact (proj2 (proj1 (promotion_within_category (ext := stub_externals)
           empty_workframe biop.MODULO integer_stypes
           (literal_of INT16) (literal_of INT64) _ _ INT16 INT64
           eq_refl eq_refl eq_refl) Hin)).
Defined.

(** C1, as stated, fails on INT_DIVIDE: FLOAT32 and FLOAT64 are both numeric,
    yet the table has no entry for the pair and [resolve] raises TypeError
    instead of returning FLOAT64. *)
Lemma int_divide_of_floats_counterexample :
  stated_category biop.INT_DIVIDE = Some numeric_stypes
  ∧ (FLOAT32 ∈ numeric_stypes ∧ FLOAT64 ∈ numeric_stypes)
  ∧ promote FLOAT32 FLOAT64 = FLOAT64
  ∧ binop_rules !! id_biop_stypes (biop.code biop.INT_DIVIDE) FLOAT32 FLOAT64
    = None
  ∧ binop_rules !! id_biop_stypes (biop.code biop.INT_DIVIDE) FLOAT32 FLOAT64
    ≠ Some (promote FLOAT32 FLOAT64)
  ∧ (resolve (ext := stub_externals) empty_workframe
      (expr_binaryop (biop.code biop.INT_DIVIDE)
         (literal_of FLOAT32) (literal_of FLOAT64))).2
    = Raise (TypeError [MStr "Binary operator `"; MStr "//";
                        MStr "` cannot be applied to columns with stypes `";
                        MSType FLOAT32; MStr "` and `"; MSType FLOAT64;
                        MStr "`"]).
Proof.
  split; [reflexivity|].
  split; [split; in_styvec|].
  split; [reflexivity|].
  split; [by rewrite binop_rules_lookup|].
  split; [by rewrite binop_rules_lookup|].
  rewrite (resolve_binaryop (ext := stub_externals) empty_workframe _ _ _ _ _ _ _
             (resolve_literal_of _ FLOAT32) (resolve_literal_of _ FLOAT64)).
  cbn [snd]. unfold binop_rule. by rewrite binop_rules_lookup.
Qed.

(** C3: for every pair of numeric operand storage types, INT8 with INT8
    included, the table maps DIVIDE to FLOAT64 and resolving the DIVIDE node
    returns FLOAT64. *)
Theorem divide_resolves_to_float64 {ext : Externals} (wf : workframe)
    (l r l' r' : pexpr) (s1 s2 : SType) :
  s1 ∈ numeric_stypes ->
  s2 ∈ numeric_stypes ->
  resolve wf l = (l', Ok s1) ->
  resolve wf r = (r', Ok s2) ->
  binop_rules !! id_biop_stypes (biop.code biop.DIVIDE) s1 s2 = Some FLOAT64
  ∧ resolve wf (expr_binaryop (biop.code biop.DIVIDE) l r)
    = (expr_binaryop (biop.code biop.DIVIDE) l' r', Ok FLOAT64).
Proof.
  intros H1 H2 Hl Hr.
  assert (Ht : binop_rule_table biop.DIVIDE s1 s2 = Some FLOAT64)
    by (simpl; by rewrite both_in_true).
  split.
  - by rewrite binop_rules_lookup.
  - rewrite (resolve_binaryop _ _ _ _ _ _ _ _ Hl Hr).
    f_equal. by apply binop_rule_present.
Qed.

Lemma divide_resolves_to_float64_witness :
  (INT8 ∈ numeric_stypes)
  ∧ resolve (ext := stub_externals) empty_workframe (literal_of INT8)
    = (literal_of INT8, Ok INT8)
  ∧ binop_rules !! id_biop_stypes (biop.code biop.DIVIDE) INT8 INT8
    = Some FLOAT64
  ∧ resolve (ext := stub_externals) empty_workframe
      (expr_binaryop (biop.code biop.DIVIDE) (literal_of INT8) (literal_of INT8))
    = (expr_binaryop (biop.code biop.DIVIDE) (literal_of INT8) (literal_of INT8),
       Ok FLOAT64).
Proof.
  assert (Hin : INT8 ∈ numeric_stypes) by in_styvec.
  split; [exact Hin|]. split; [reflexivity|].
  exact (divide_resolves_to_float64 (ext := stub_externals) empty_workframe
           (literal_of INT8) (literal_of INT8) _ _ INT8 INT8
           Hin Hin eq_refl eq_refl).
Defined.

(** C6: on two string operands of any widths, the pair (STR32, STR64)
    included, REL_EQ and REL_NE resolve to BOOL; every other binary operator,
    PLUS and the four ordering relations among them, has no entry in the
    table and [resolve] raises TypeError. *)
Theorem string_operands_only_compare_equal {ext : Externals} (wf : workframe)
    (op : biop.t) (l r l' r' : pexpr) (s1 s2 : SType) :
  s1 ∈ string_types ->
  s2 ∈ string_types ->
  resolve wf l = (l', Ok s1) ->
  resolve wf r = (r', Ok s2) ->
  (op ∈ [biop.REL_EQ; biop.REL_NE] ->
     binop_rules !! id_biop_stypes (biop.code op) s1 s2 = Some BOOL
     ∧ resolve wf (expr_binaryop (biop.code op) l r)
       = (expr_binaryop (biop.code op) l' r', Ok BOOL))
  ∧ (op ∉ [biop.REL_EQ; biop.REL_NE] ->
     binop_rules !! id_biop_stypes (biop.code op) s1 s2 = None
     ∧ is_TypeError (resolve wf (expr_binaryop (biop.code op) l r)).2).
Proof.
  intros H1 H2 Hl Hr.
  rewrite (resolve_binaryop _ _ _ _ _ _ _ _ Hl Hr), binop_rules_lookup.
  assert (Hs : both_in string_types s1 s2 = true) by by apply both_in_true.
  assert (Hn : both_in numeric_stypes s1 s2 = false).
  { apply both_in_false. intros [Hn _]. revert H1 Hn.
    rewrite !list_elem_of_In. simpl. intuition congruence. }
  assert (Hi : both_in integer_stypes s1 s2 = false).
  { apply both_in_false. intros [Hi _]. revert H1 Hi.
    rewrite !list_elem_of_In. simpl. intuition congruence. }
  assert (Hb : bool_decide (s1 = BOOL) = false).
  { apply bool_decide_eq_false_2. intros ->. revert H1.
    rewrite list_elem_of_In. simpl. intuition congruence. }
  split.
  - intros Hop.
    assert (Ht : binop_rule_table op s1 s2 = Some BOOL).
    { revert Hop. rewrite list_elem_of_In. simpl.
      intros [<-|[<-|[]]]; simpl; rewrite Hs; apply orb_true_r || by rewrite orb_true_r. }
    split; [exact Ht | f_equal; by apply binop_rule_present].
  - intros Hop.
    assert (Ht : binop_rule_table op s1 s2 = None).
    { destruct op; simpl; rewrite ?Hn, ?Hi, ?Hb; try reflexivity;
        exfalso; apply Hop; rewrite list_elem_of_In; simpl; auto. }
    split; [exact Ht | by apply binop_rule_absent].
Qed.

Lemma string_operands_only_compare_equal_witness :
  (STR32 ∈ string_types ∧ STR64 ∈ string_types)
  ∧ resolve (ext := stub_externals) empty_workframe (literal_of STR32)
    = (literal_of STR32, Ok STR32)
  ∧ resolve (ext := stub_externals) empty_workframe (literal_of STR64)
    = (literal_of STR64, Ok STR64)
  ∧ (biop.REL_EQ ∈ [biop.REL_EQ; biop.REL_NE]
     ∧ biop.PLUS ∉ [biop.REL_EQ; biop.REL_NE])
  ∧ (resolve (ext := stub_externals) empty_workframe
       (expr_binaryop (biop.code biop.REL_EQ) (literal_of STR32) (literal_of STR64))).2
    = Ok BOOL
  ∧ is_TypeError
      (resolve (ext := stub_externals) empty_workframe
         (expr_binaryop (biop.code biop.PLUS) (literal_of STR32) (literal_of STR32))).2.
Proof.
  assert (H32 : STR32 ∈ string_types) by in_styvec.
  assert (H64 : STR64 ∈ string_types) by in_styvec.
  assert (Heq : biop.REL_EQ ∈ [biop.REL_EQ; biop.REL_NE]) by by_evaluation.
  assert (Hplus : biop.PLUS ∉ [biop.REL_EQ; biop.REL_NE]) by by_evaluation.
  split; [by split|]. do 2 (split; [reflexivity|]). split; [by split|].
  split.
  - exact (f_equal snd (proj2 (proj1 (string_operands_only_compare_equal
             (ext := stub_externals) empty_workframe biop.REL_EQ
             (literal_of STR32) (literal_of STR64) _ _ STR32 STR64
             H32 H64 eq_refl eq_refl) Heq))).
  - exact (proj2 (proj2 (string_operands_only_compare_equal
             (ext := stub_externals) empty_workframe biop.PLUS
             (literal_of STR32) (literal_of STR32) _ _ STR32 STR32
             H32 H32 eq_refl eq_refl) Hplus)).
Defined.

(** The result type of unary MINUS, PLUS and ABS on the storage type [s]. *)
Lemma sign_rule_table (op : unop.t) (s : SType) :
  op ∈ [unop.MINUS; unop.PLUS; unop.ABS] ->
  s ∈ numeric_stypes ->
  unop_rule_table op s = Some (if decide (s = BOOL) then INT8 else s).
Proof.
  intros Hop Hs.
  assert (Ht : unop_rule_table op s
               = if bool_decide (s = BOOL) then Some INT8
                 else if bool_decide (s ∈ numeric_stypes) then Some s else None).
  { revert Hop. rewrite list_elem_of_In. simpl.
    intros [<-|[<-|[<-|[]]]]; reflexivity. }
  rewrite Ht. destruct (decide (s = BOOL)) as [->|Hne].
  - reflexivity.
  - rewrite bool_decide_eq_false_2 by assumption.
    by rewrite bool_decide_eq_true_2.
Qed.

(** C7: unary MINUS, PLUS and ABS are defined for every numeric storage type
    and return the operand's storage type, except on BOOL, where the result
    is INT8. *)
Theorem sign_operators_preserve_stype {ext : Externals} (wf : workframe)
    (op : unop.t) (a a' : pexpr) (s : SType) :
  op ∈ [unop.MINUS; unop.PLUS; unop.ABS] ->
  s ∈ numeric_stypes ->
  resolve wf a = (a', Ok s) ->
  let st := if decide (s = BOOL) then INT8 else s in
  unop_rules !! id_unop_stype (unop.code op) s = Some st
  ∧ resolve wf (expr_unaryop (unop.code op) a)
    = (expr_unaryop (unop.code op) a', Ok st).
Proof.
  intros Hop Hs Ha st.
  pose proof (sign_rule_table op s Hop Hs) as Ht. fold st in Ht.
  split.
  - by rewrite unop_rules_lookup.
  - rewrite (resolve_unaryop _ _ _ _ _ Ha). f_equal.
    by apply unop_rule_present.
Qed.

Lemma sign_operators_preserve_stype_witness :
  unop.MINUS ∈ [unop.MINUS; unop.PLUS; unop.ABS]
  ∧ BOOL ∈ numeric_stypes
  ∧ resolve (ext := stub_externals) empty_workframe (literal_of BOOL)
    = (literal_of BOOL, Ok BOOL)
  ∧ unop_rules !! id_unop_stype (unop.code unop.MINUS) BOOL = Some INT8
  ∧ resolve (ext := stub_externals) empty_workframe
      (expr_unaryop (unop.code unop.MINUS) (literal_of BOOL))
    = (expr_unaryop (unop.code unop.MINUS) (literal_of BOOL), Ok INT8).
Proof.
  assert (Hop : unop.MINUS ∈ [unop.MINUS; unop.PLUS; unop.ABS])
    by by_evaluation.
  assert (Hs : BOOL ∈ numeric_stypes) by in_styvec.
  split; [exact Hop|]. split; [exact Hs|]. split; [reflexivity|].
  exact (sign_operators_preserve_stype (ext := stub_externals) empty_workframe
           unop.MINUS (literal_of BOOL) _ BOOL Hop Hs eq_refl).
Defined.

(** ** The COUNT reduction *)

Lemma wrap32_small (z : Z) : (- 2 ^ 31 <= z < 2 ^ 31)%Z -> wrap32 z = z.
Proof.
  intros Hz. unfold wrap32, wrap_signed.
  rewrite Z.mod_small; lia.
Qed.

Lemma wrap64_small (z : Z) : (- 2 ^ 63 <= z < 2 ^ 63)%Z -> wrap64 z = z.
Proof.
  intros Hz. unfold wrap64, wrap_signed.
  rewrite Z.mod_small; lia.
Qed.

Lemma to_int64_small (n : N) : n < 2 ^ 63 -> to_int64 n = Z.of_N n.
Proof.
  intros Hn. unfold to_int64. apply wrap64_small. lia.
Qed.

(** The loop invariant: after the cells before [i] have been written, the
    remaining rounds write the wrapped sizes of the remaining groups. *)
Lemma count_loop_writes (n : nat) :
  forall (before rest : list Z) (done todo : list Z),
    length before = length done ->
    length todo = n ->
    length rest = S n ->
    count_loop (before ++ rest) (length done) n (done ++ todo)
    = Ok (done ++ map wrap32 (group_sizes rest)).
Proof.
  induction n as [|n IH]; intros before rest done todo Hb Ht Hr.
  - destruct todo; [|discriminate].
    destruct rest as [|lo [|hi rest]]; try discriminate. reflexivity.
  - destruct todo as [|cell todo]; [discriminate|].
    destruct rest as [|lo [|hi rest]]; try discriminate.
    assert (Hhi : (before ++ lo :: hi :: rest) !! S (length done) = Some hi).
    { rewrite <- Hb, lookup_app_r by lia.
      replace (S (length before) - length before)%nat with 1%nat by lia.
      reflexivity. }
    assert (Hlo : (before ++ lo :: hi :: rest) !! length done = Some lo).
    { rewrite <- Hb. by apply list_lookup_middle. }
    cbn [count_loop]. rewrite Hhi, Hlo.
    replace (<[length done := wrap32 (hi - lo)]> (done ++ cell :: todo))
      with ((done ++ [wrap32 (hi - lo)]) ++ todo).
    2:{ rewrite <- (Nat.add_0_r (length done)), insert_app_r.
        rewrite <- app_assoc. reflexivity. }
    replace (S (length done)) with (length (done ++ [wrap32 (hi - lo)]))
      by (rewrite length_app; simpl; lia).
    replace (before ++ lo :: hi :: rest) with ((before ++ [lo]) ++ hi :: rest)
      by (rewrite <- app_assoc; reflexivity).
    rewrite (IH (before ++ [lo]) (hi :: rest) (done ++ [wrap32 (hi - lo)]) todo).
    + rewrite <- app_assoc. reflexivity.
    + rewrite !length_app. simpl. lia.
    + simpl in Ht. lia.
    + simpl in Hr |- *. lia.
Qed.

Lemma group_sizes_fit (offsets : list Z) :
  Forall (fun o => (0 <= o < 2 ^ 31)%Z) offsets ->
  map wrap32 (group_sizes offsets) = group_sizes offsets.
Proof.
  induction offsets as [|lo [|hi rest] IH]; intros Hall; try reflexivity.
  inversion Hall as [|? ? Hlo Hrest]; subst.
  inversion Hrest as [|? ? Hhi _]; subst.
  change (group_sizes (lo :: hi :: rest))
    with ((hi - lo)%Z :: group_sizes (hi :: rest)).
  rewrite map_cons, IH by assumption.
  rewrite wrap32_small by lia. reflexivity.
Qed.

Lemma group_sizes_length (offsets : list Z) :
  length (group_sizes offsets) = Nat.pred (length offsets).
Proof.
  induction offsets as [|lo [|hi rest] IH]; try reflexivity.
  change (group_sizes (lo :: hi :: rest))
    with ((hi - lo)%Z :: group_sizes (hi :: rest)).
  cbn [length] in IH |- *. rewrite IH. reflexivity.
Qed.

(** C2: the COUNT node resolves to INT64 whatever the workframe; evaluated
    under a grouping it yields the INT32 column of the differences of
    consecutive boundary offsets, one per group, and without a grouping the
    one-row INT64 column holding the workframe's row count. *)
Theorem count_reduction {ext : Externals} (wf : workframe) :
  resolve wf (expr_reduce_nullary COUNT) = (expr_reduce_nullary COUNT, Ok INT64)
  ∧ (has_groupby wf = true ->
     valid_groupby (get_groupby wf) ->
     evaluate_eager wf (expr_reduce_nullary COUNT)
     = Ok (Some (mkColumn INT32 (group_sizes (offsets_r (get_groupby wf)))
                         None))
     ∧ length (group_sizes (offsets_r (get_groupby wf)))
       = N.to_nat (ngroups (get_groupby wf)))
  ∧ (has_groupby wf = false ->
     nrows wf < 2 ^ 63 ->
     evaluate_eager wf (expr_reduce_nullary COUNT)
     = Ok (Some (mkColumn INT64 [Z.of_N (nrows wf)] None))).
Proof.
  split; [reflexivity|]. split.
  - intros Hg [Hlen Hfit].
    assert (Hrun : count_loop (offsets_r (get_groupby wf)) 0
                     (N.to_nat (ngroups (get_groupby wf)))
                     (replicate (N.to_nat (ngroups (get_groupby wf))) 0%Z)
                   = Ok (group_sizes (offsets_r (get_groupby wf)))).
    { rewrite <- (group_sizes_fit _ Hfit).
      apply (count_loop_writes _ [] _ [] _ eq_refl).
      - apply length_replicate.
      - exact Hlen. }
    split.
    + cbn. unfold expr_reduce_nullary_evaluate_eager. cbn.
      rewrite Hg. cbn. rewrite Hrun. reflexivity.
    + rewrite group_sizes_length, Hlen. reflexivity.
  - intros Hg Hrows. cbn. unfold expr_reduce_nullary_evaluate_eager. cbn.
    rewrite Hg. cbn. rewrite to_int64_small by assumption. reflexivity.
Qed.

Lemma count_reduction_witness :
  (has_groupby three_groups = true ∧ valid_groupby (get_groupby three_groups))
  ∧ (has_groupby seven_rows = false ∧ nrows seven_rows < 2 ^ 63)
  ∧ evaluate_eager (ext := stub_externals) three_groups
      (expr_reduce_nullary COUNT)
    = Ok (Some (mkColumn INT32 [3; 4; 3]%Z None))
  ∧ evaluate_eager (ext := stub_externals) seven_rows
      (expr_reduce_nullary COUNT)
    = Ok (Some (mkColumn INT64 [7%Z] None)).
Proof.
  assert (Hv : valid_groupby (get_groupby three_groups)).
  { split; [reflexivity|]. repeat constructor; cbn; lia. }
  assert (Hr : nrows seven_rows < 2 ^ 63) by (cbn; lia).
  split; [by split|]. split; [by split|]. split.
  - exact (proj1 (proj1 (proj2 (count_reduction (ext := stub_externals)
             three_groups)) eq_refl Hv)).
  - exact (proj2 (proj2 (count_reduction (ext := stub_externals) seven_rows))
             eq_refl Hr).
Defined.

(** ** Column references *)

Lemma to_size_small (z : Z) : (0 <= z < 2 ^ 64)%Z -> to_size z = Z.to_N z.
Proof. intros Hz. unfold to_size. by rewrite Z.mod_small. Qed.

Lemma get_datatable_known (wf : workframe) (frame_id : N) (dt : DataTable) :
  get_datatable wf frame_id = Ok dt -> frame_id < nframes wf.
Proof.
  unfold get_datatable, nframes. intros Hdt.
  destruct (wf_frames wf !! N.to_nat frame_id) as [[dt' ri]|] eqn:Hl;
    [|discriminate].
  apply lookup_lt_Some in Hl. lia.
Qed.

Lemma get_datatable_unknown (wf : workframe) (frame_id : N) :
  nframes wf <= frame_id -> get_datatable wf frame_id = Raise UndefinedBehaviour.
Proof.
  unfold get_datatable, nframes. intros Hn.
  rewrite (proj2 (lookup_ge_None (wf_frames wf) (N.to_nat frame_id))); [done|lia].
Qed.

Lemma columns_at_in_range (dt : DataTable) (i : N) :
  i < ncols dt -> exists c, columns_at dt i = Ok c.
Proof.
  unfold columns_at, ncols. intros Hi.
  destruct (lookup_lt_is_Some_2 (dt_columns dt) (N.to_nat i)) as [[name c] Hc];
    [lia|].
  exists c. by rewrite Hc.
Qed.

(** [get_col_index] on a fresh node whose selector is the integer [i]. *)
Lemma get_col_index_int (wf : workframe) (frame_id : N) (i : Z) (dt : DataTable) :
  int64_range i ->
  get_datatable wf frame_id = Ok dt ->
  ncols dt < 2 ^ 63 ->
  let n := Z.of_N (ncols dt) in
  get_col_index wf frame_id size_minus_one (PyInt i)
  = if bool_decide (- n <= i < n)%Z
    then (python_index i n, Ok (python_index i n))
    else (size_minus_one, Raise (ValueError (invalid_index i n))).
Proof.
  intros Hi Hdt Hn n. unfold get_col_index.
  pose proof (get_datatable_known _ _ _ Hdt) as Hlt.
  rewrite N.eqb_refl, (proj2 (N.leb_gt _ _) Hlt), Hdt.
  cbn [is_int to_int64_strict].
  unfold int64_range in Hi.
  rewrite (proj2 (Z.leb_le _ _) (proj1 Hi)), (proj2 (Z.ltb_lt _ _) (proj2 Hi)).
  cbn [andb bind].
  rewrite to_int64_small by assumption. fold n.
  assert (Hn' : (0 <= n < 2 ^ 63)%Z) by (unfold n; lia).
  rewrite wrap64_small by lia.
  destruct (bool_decide_reflect (- n <= i < n)%Z) as [Hin|Hout].
  - rewrite (proj2 (Z.ltb_ge _ _)) by lia.
    rewrite (proj2 (Z.leb_gt _ _)) by lia. cbn [orb].
    assert (Hidx : (if (i <? 0)%Z then wrap64 (i + n) else i)
                   = (if (i <? 0)%Z then i + n else i)%Z).
    { destruct (Z.ltb_spec i 0); [apply wrap64_small; lia | reflexivity]. }
    rewrite Hidx. unfold python_index.
    assert (Hrange : (0 <= (if (i <? 0)%Z then i + n else i) < n)%Z)
      by (destruct (Z.ltb_spec i 0); lia).
    set (x := (if (i <? 0)%Z then i + n else i)%Z) in *.
    rewrite to_size_small by lia.
    rewrite (proj2 (N.ltb_lt _ _)) by (unfold n in Hrange; lia).
    reflexivity.
  - assert (Hc : ((i <? - n) || (n <=? i))%Z = true).
    { apply orb_true_iff.
      destruct (Z.ltb_spec i (- n)); [by left|right].
      apply Z.leb_le. lia. }
    rewrite Hc. reflexivity.
Qed.

Lemma python_index_in_range (i n : Z) :
  (- n <= i < n)%Z -> (Z.of_N (python_index i n) < n)%Z.
Proof.
  intros Hin. unfold python_index. destruct (Z.ltb_spec i 0); lia.
Qed.

(** C5: resolving a column reference raises ValueError exactly when the
    reference is invalid.  An unknown frame id raises ValueError; on a known
    frame of [n] columns the integer selector [i] is accepted exactly when
    [-n <= i < n], a negative [i] designating column [i + n], and any other
    integer raises ValueError with a message that names [i] and [n]. *)
Theorem column_reference_validation {ext : Externals} (wf : workframe)
    (frame_id : N) (i : Z) :
  int64_range i ->
  (forall dt, get_datatable wf frame_id = Ok dt -> ncols dt < 2 ^ 63) ->
  (nframes wf <= frame_id ->
     forall sel, resolve wf (expr_column frame_id sel)
                 = (expr_column frame_id sel, Raise (ValueError no_such_frame)))
  ∧ (forall dt, get_datatable wf frame_id = Ok dt ->
       let n := Z.of_N (ncols dt) in
       ((- n <= i < n)%Z ->
          exists c, columns_at dt (python_index i n) = Ok c
                    ∧ resolve wf (expr_column frame_id (PyInt i))
                      = (ExprColumn frame_id (python_index i n) (PyInt i),
                         Ok (col_stype c)))
       ∧ (¬ (- n <= i < n)%Z ->
          resolve wf (expr_column frame_id (PyInt i))
          = (expr_column frame_id (PyInt i),
             Raise (ValueError (invalid_index i n)))))
  ∧ (is_ValueError (resolve wf (expr_column frame_id (PyInt i))).2
     <-> nframes wf <= frame_id
         ∨ exists dt, get_datatable wf frame_id = Ok dt
                      ∧ ¬ (- Z.of_N (ncols dt) <= i < Z.of_N (ncols dt))%Z).
Proof.
  intros Hi Hsize.
  assert (Hunknown : nframes wf <= frame_id ->
            forall sel, resolve wf (expr_column frame_id sel)
                 = (expr_column frame_id sel, Raise (ValueError no_such_frame))).
  { intros Hf sel. cbn. unfold expr_column_resolve, get_col_index.
    rewrite N.eqb_refl, (proj2 (N.leb_le _ _) Hf). reflexivity. }
  assert (Hknown : forall dt, get_datatable wf frame_id = Ok dt ->
       let n := Z.of_N (ncols dt) in
       ((- n <= i < n)%Z ->
          exists c, columns_at dt (python_index i n) = Ok c
                    ∧ resolve wf (expr_column frame_id (PyInt i))
                      = (ExprColumn frame_id (python_index i n) (PyInt i),
                         Ok (col_stype c)))
       ∧ (¬ (- n <= i < n)%Z ->
          resolve wf (expr_column frame_id (PyInt i))
          = (expr_column frame_id (PyInt i),
             Raise (ValueError (invalid_index i n))))).
  { intros dt Hdt n.
    pose proof (get_col_index_int wf frame_id i dt Hi Hdt (Hsize dt Hdt)) as Hg.
    cbn zeta in Hg. fold n in Hg.
    split; intros Hr; cbn; unfold expr_column_resolve; rewrite Hg.
    - rewrite bool_decide_eq_true_2 by assumption.
      destruct (columns_at_in_range dt (python_index i n)) as [c Hc].
      { pose proof (python_index_in_range i n Hr). unfold n in *. lia. }
      exists c. split; [exact Hc|]. cbn. rewrite Hdt. cbn. rewrite Hc.
      reflexivity.
    - rewrite bool_decide_eq_false_2 by assumption. reflexivity. }
  split; [exact Hunknown|]. split; [exact Hknown|].
  split.
  - intros Herr.
    destruct (N.le_gt_cases (nframes wf) frame_id) as [Hf|Hf]; [by left|right].
    destruct (get_datatable wf frame_id) as [dt|e] eqn:Hdt.
    + exists dt. split; [reflexivity|]. intros Hr.
      destruct (proj1 (Hknown dt eq_refl) Hr) as (c & _ & Hres).
      rewrite Hres in Herr. exact Herr.
    + unfold get_datatable, nframes in *.
      destruct (lookup_lt_is_Some_2 (wf_frames wf) (N.to_nat frame_id))
        as [[dt ri] Hl]; [lia|].
      rewrite Hl in Hdt. discriminate.
  - intros [Hf|(dt & Hdt & Hr)].
    + rewrite (Hunknown Hf). exact I.
    + rewrite (proj2 (Hknown dt Hdt) Hr). exact I.
Qed.

Lemma column_reference_validation_witness :
  (int64_range (-1) ∧ int64_range (-6) ∧ int64_range 5)
  ∧ (forall dt, get_datatable five_column_workframe 0 = Ok dt -> ncols dt < 2 ^ 63)
  ∧ resolve (ext := stub_externals) five_column_workframe
      (expr_column 0 (PyInt (-1)))
    = (ExprColumn 0 4 (PyInt (-1)), Ok BOOL)
  ∧ resolve (ext := stub_externals) five_column_workframe
      (expr_column 0 (PyInt (-6)))
    = (expr_column 0 (PyInt (-6)), Raise (ValueError (invalid_index (-6) 5)))
  ∧ resolve (ext := stub_externals) five_column_workframe
      (expr_column 0 (PyInt 5))
    = (expr_column 0 (PyInt 5), Raise (ValueError (invalid_index 5 5)))
  ∧ resolve (ext := stub_externals) five_column_workframe
      (expr_column 1 (PyInt 0))
    = (expr_column 1 (PyInt 0), Raise (ValueError no_such_frame)).
Proof.
  assert (Hs : forall dt, get_datatable five_column_workframe 0 = Ok dt ->
                          ncols dt < 2 ^ 63).
  { intros dt Hdt. injection Hdt as <-. reflexivity. }
  assert (Hs1 : forall dt, get_datatable five_column_workframe 1 = Ok dt ->
                          ncols dt < 2 ^ 63) by (intros dt Hdt; discriminate).
  split; [repeat split; by_evaluation|]. split; [exact Hs|].
  split.
  { destruct (proj1 (proj1 (proj2 (column_reference_validation
        (ext := stub_externals) five_column_workframe 0 (-1)
        ltac:(by_evaluation) Hs)) five_columns eq_refl) ltac:(by_evaluation))
      as (c & Hc & Hres).
    cbn in Hc. injection Hc as <-. exact Hres. }
  split.
  { exact (proj2 (proj1 (proj2 (column_reference_validation
        (ext := stub_externals) five_column_workframe 0 (-6)
        ltac:(by_evaluation) Hs)) five_columns eq_refl) ltac:(by_evaluation)). }
  split.
  { exact (proj2 (proj1 (proj2 (column_reference_validation
        (ext := stub_externals) five_column_workframe 0 5
        ltac:(by_evaluation) Hs)) five_columns eq_refl) ltac:(by_evaluation)). }
  exact (proj1 (column_reference_validation
        (ext := stub_externals) five_column_workframe 1 0
        ltac:(by_evaluation) Hs1) ltac:(by_evaluation) (PyInt 0)).
Defined.

(** ** Grouping modes *)

Lemma mode_max_more_general (a b : GroupbyMode) :
  mode_max a b = more_general a b.
Proof. destruct a, b; reflexivity. Qed.

Lemma more_general_is_max (a b : GroupbyMode) :
  mode_le a (more_general a b) ∧ mode_le b (more_general a b)
  ∧ (more_general a b = a ∨ more_general a b = b).
Proof. destruct a, b; unfold mode_le; cbn; repeat split; auto; lia. Qed.

Lemma has_group_column_elem (b : by_node) (i : N) :
  has_group_column b i = true <-> i ∈ group_columns b.
Proof. unfold has_group_column. apply bool_decide_eq_true. Qed.

(** C4: a column reference is PerGroup exactly when its frame is frame 0, a
    grouping is active and the column index it holds is one of the grouping
    key columns, and PerRow otherwise; literals and the nullary reduction are
    PerGroup; a binary operation whose operands report their modes takes the
    maximum of the two under PerGroup < PerRow; unary operations and casts
    take the mode their operand reports.  An operand pointer that is null is
    dereferenced: such a node reports no mode at all. *)
Theorem groupby_mode_propagation {ext : Externals} (wf : workframe) :
  (forall frame_id col_id sel,
     (get_groupby_mode wf (ExprColumn frame_id col_id sel) = Ok GtoONE
      <-> frame_id = 0 ∧ has_groupby wf = true
          ∧ col_id ∈ group_columns (get_by_node wf))
     ∧ (¬ (frame_id = 0 ∧ has_groupby wf = true
           ∧ col_id ∈ group_columns (get_by_node wf))
        <-> get_groupby_mode wf (ExprColumn frame_id col_id sel) = Ok GtoALL))
  ∧ (forall col, get_groupby_mode wf (ExprLiteral col) = Ok GtoONE)
  ∧ (forall opcode,
       get_groupby_mode wf (expr_reduce_nullary opcode) = Ok GtoONE)
  ∧ (forall code l r lmode rmode,
       get_groupby_mode wf l = Ok lmode ->
       get_groupby_mode wf r = Ok rmode ->
       get_groupby_mode wf (expr_binaryop code l r)
       = Ok (more_general lmode rmode)
       ∧ mode_le lmode (more_general lmode rmode)
       ∧ mode_le rmode (more_general lmode rmode))
  ∧ (forall code a mode,
       get_groupby_mode wf a = Ok mode ->
       get_groupby_mode wf (expr_unaryop code a) = Ok mode)
  ∧ (forall a st mode,
       get_groupby_mode wf a = Ok mode ->
       get_groupby_mode wf (expr_cast a st) = Ok mode)
  ∧ (forall code st l r lmode,
       get_groupby_mode wf (expr_binaryop code null_expr r)
       = Raise UndefinedBehaviour
       ∧ (get_groupby_mode wf l = Ok lmode ->
          get_groupby_mode wf (expr_binaryop code l null_expr)
          = Raise UndefinedBehaviour)
       ∧ get_groupby_mode wf (expr_unaryop code null_expr)
         = Raise UndefinedBehaviour
       ∧ get_groupby_mode wf (expr_cast null_expr st)
         = Raise UndefinedBehaviour).
Proof.
  split; [|split; [|split; [|split; [|split; [|split]]]]]; try reflexivity.
  - intros frame_id col_id sel. cbn. unfold expr_column_get_groupby_mode.
    rewrite <- has_group_column_elem.
    destruct (N.eqb_spec frame_id 0) as [->|Hf];
      destruct (has_groupby wf);
      destruct (has_group_column (get_by_node wf) col_id); cbn;
      intuition congruence.
  - intros code l r lmode rmode Hl Hr. cbn. rewrite Hl, Hr. cbn.
    rewrite mode_max_more_general.
    destruct (more_general_is_max lmode rmode) as (Hlm & Hrm & _).
    auto.
  - intros code a mode Ha. cbn. exact Ha.
  - intros a st mode Ha. cbn. exact Ha.
  - intros code st l r lmode. split; [reflexivity|].
    split; [|split; reflexivity].
    intros Hl. cbn. rewrite Hl. reflexivity.
Qed.

Lemma groupby_mode_propagation_witness :
  get_groupby_mode (ext := stub_externals) five_column_workframe
    (ExprColumn 0 4 (PyInt (-1))) = Ok GtoONE
  ∧ get_groupby_mode (ext := stub_externals) five_column_workframe
      (ExprColumn 0 0 (PyInt 0)) = Ok GtoALL
  ∧ get_groupby_mode (ext := stub_externals) five_column_workframe
      (expr_binaryop (biop.code biop.PLUS)
         (ExprColumn 0 4 (PyInt (-1))) (ExprColumn 0 0 (PyInt 0)))
    = Ok GtoALL
  ∧ get_groupby_mode (ext := stub_externals) five_column_workframe
      (expr_binaryop (biop.code biop.PLUS)
         (ExprColumn 0 4 (PyInt (-1))) (literal_of INT32))
    = Ok GtoONE
  ∧ get_groupby_mode (ext := stub_externals) five_column_workframe
      (expr_cast (expr_unaryop (unop.code unop.MINUS)
                    (ExprColumn 0 4 (PyInt (-1)))) INT64)
    = Ok GtoONE.
Proof.
  pose proof (groupby_mode_propagation (ext := stub_externals)
                five_column_workframe)
    as (Hcol & Hlit & _ & Hbin & Hun & Hcast & _).
  assert (Hkey : get_groupby_mode (ext := stub_externals) five_column_workframe
                   (ExprColumn 0 4 (PyInt (-1))) = Ok GtoONE).
  { apply (proj1 (Hcol 0 4 (PyInt (-1)))).
    split; [reflexivity|]. split; [reflexivity|]. by_evaluation. }
  assert (Hrow : get_groupby_mode (ext := stub_externals) five_column_workframe
                   (ExprColumn 0 0 (PyInt 0)) = Ok GtoALL).
  { apply (proj2 (Hcol 0 0 (PyInt 0))). intros (_ & _ & Hin).
    revert Hin. by_evaluation. }
  split; [exact Hkey|]. split; [exact Hrow|]. split.
  { exact (proj1 (Hbin _ _ _ _ _ Hkey Hrow)). }
  split.
  { exact (proj1 (Hbin _ _ _ _ _ Hkey (Hlit _))). }
  exact (Hcast _ INT64 _ (Hun (unop.code unop.MINUS) _ _ Hkey)).
Defined.



(** ** Idempotence of [resolve] *)

(** Whatever the number of columns, an integer selector that passes the
    bounds check of [get_col_index] is assigned an index below [ncols]. *)
Lemma checked_index_below_ncols (icolid : Z) (n : N) :
  let incols := to_int64 n in
  ((icolid <? wrap64 (- incols)) || (incols <=? icolid))%Z = false ->
  to_size (if (icolid <? 0)%Z then wrap64 (icolid + incols) else icolid) < n.
Proof.
  intros incols Hcheck.
  apply orb_false_iff in Hcheck as [Hlo Hhi].
  apply Z.ltb_ge in Hlo. apply Z.leb_gt in Hhi.
  assert (Hinc : (- 2 ^ 63 <= incols < 2 ^ 63)%Z ∧ (incols <= Z.of_N n)%Z).
  { unfold incols, to_int64, wrap64, wrap_signed.
    pose proof (Z.mod_pos_bound (Z.of_N n + 2 ^ (64 - 1)) (2 ^ 64) eq_refl).
    pose proof (Z.mod_le (Z.of_N n + 2 ^ (64 - 1)) (2 ^ 64)
                  ltac:(lia) eq_refl).
    lia. }
  destruct Hinc as [Hrange Hle]. clearbody incols.
  assert (Hpos : (0 < incols)%Z).
  { destruct (Z_lt_le_dec 0 incols) as [|Hneg]; [assumption|exfalso].
    destruct (Z.eq_dec incols (- 2 ^ 63)%Z) as [Heq|Hne].
    - assert (Hw : wrap64 (- incols) = (- 2 ^ 63)%Z)
        by (rewrite Heq; reflexivity).
      rewrite Hw in Hlo. lia.
    - rewrite wrap64_small in Hlo by lia. lia. }
  rewrite wrap64_small in Hlo by lia.
  assert (Hx : (0 <= (if (icolid <? 0)%Z then wrap64 (icolid + incols) else icolid)
                < incols)%Z).
  { destruct (Z.ltb_spec icolid 0); [rewrite wrap64_small|]; lia. }
  set (x := (if (icolid <? 0)%Z then wrap64 (icolid + incols) else icolid)) in *.
  rewrite to_size_small by lia. lia.
Qed.

Lemma name_index_below (name : string) (l : list (string * Column)) (i : nat) :
  name_index name l = Some i -> (i < length l)%nat.
Proof.
  revert i. induction l as [|[n c] l IH]; intros i; cbn; [discriminate|].
  destruct (String.eqb n name).
  - intros [= <-]. lia.
  - destruct (name_index name l) as [j|]; [|discriminate].
    intros [= <-]. specialize (IH j eq_refl). lia.
Qed.

Lemma xcolindex_below_ncols (dt : DataTable) (sel : robj) (i : N) :
  xcolindex dt sel = Ok i -> i < ncols dt.
Proof.
  unfold xcolindex, ncols. destruct sel as [| name | |]; try discriminate.
  destruct (name_index name (dt_columns dt)) as [j|] eqn:Hj; [|discriminate].
  intros [= <-]. apply name_index_below in Hj. lia.
Qed.

(** The first call of [get_col_index] either leaves the cache at
    [size_t(-1)] or stores an index and returns it. *)
Lemma get_col_index_first_call (wf : workframe) (frame_id : N) (sel : robj)
    (c1 : N) (r1 : result N) :
  get_col_index wf frame_id size_minus_one sel = (c1, r1) ->
  c1 = size_minus_one ∨ (c1 ≠ size_minus_one ∧ r1 = Ok c1).
Proof.
  unfold get_col_index. rewrite N.eqb_refl.
  destruct (nframes wf <=? frame_id); [intros [= <- _]; by left|].
  destruct (get_datatable wf frame_id) as [dt|e]; [|intros [= <- _]; by left].
  destruct (is_int sel) eqn:Hint.
  - destruct (to_int64_strict sel) as [icolid|e]; cbn [bind];
      [|intros [= <- _]; by left].
    destruct ((icolid <? wrap64 (- to_int64 (ncols dt)))
              || (to_int64 (ncols dt) <=? icolid))%Z eqn:Hcheck;
      [intros [= <- _]; by left|].
    pose proof (checked_index_below_ncols icolid (ncols dt) Hcheck) as Hlt.
    cbn zeta in Hlt. rewrite (proj2 (N.ltb_lt _ _) Hlt).
    intros [= <- <-].
    destruct (decide (to_size (if (icolid <? 0)%Z
                               then wrap64 (icolid + to_int64 (ncols dt))
                               else icolid) = size_minus_one)); auto.
  - destruct (is_string sel).
    + destruct (xcolindex dt sel) as [i|e] eqn:Hx; [|intros [= <- _]; by left].
      rewrite (proj2 (N.ltb_lt _ _) (xcolindex_below_ncols _ _ _ Hx)).
      intros [= <- <-]. destruct (decide (i = size_minus_one)); auto.
    + destruct (size_minus_one <? ncols dt); intros [= <- _]; by left.
Qed.

Lemma get_col_index_idempotent (wf : workframe) (frame_id col_id : N)
    (sel : robj) (c1 : N) (r1 : result N) :
  get_col_index wf frame_id col_id sel = (c1, r1) ->
  get_col_index wf frame_id c1 sel = (c1, r1).
Proof.
  intros Hfirst.
  destruct (N.eqb_spec col_id size_minus_one) as [->|Hne].
  - destruct (get_col_index_first_call _ _ _ _ _ Hfirst) as [->|[Hc ->]];
      [exact Hfirst|].
    unfold get_col_index. by rewrite (proj2 (N.eqb_neq _ _) Hc).
  - unfold get_col_index in Hfirst |- *.
    rewrite (proj2 (N.eqb_neq _ _) Hne) in Hfirst.
    injection Hfirst as <- <-. by rewrite (proj2 (N.eqb_neq _ _) Hne).
Qed.

(** What [get_col_index] returns is what it leaves in the cache. *)
Lemma get_col_index_returns_cache (wf : workframe) (frame_id col_id : N)
    (sel : robj) (c1 i : N) :
  get_col_index wf frame_id col_id sel = (c1, Ok i) -> c1 = i.
Proof.
  unfold get_col_index.
  destruct (col_id =? size_minus_one); [|by intros [= <- <-]].
  destruct (nframes wf <=? frame_id); [discriminate|].
  destruct (get_datatable wf frame_id) as [dt|e]; [|discriminate].
  match goal with
  | |- context [match ?assigned with Ok _ => _ | Raise _ => _ end] =>
      destruct assigned as [c'|e]; [|discriminate]
  end.
  destruct (c' <? ncols dt); [|discriminate]. by intros [= <- <-].
Qed.

(** A cache that holds an index is never written again. *)
Lemma get_col_index_cached (wf : workframe) (frame_id col_id : N) (sel : robj) :
  col_id ≠ size_minus_one ->
  get_col_index wf frame_id col_id sel = (col_id, Ok col_id).
Proof.
  intros Hne. unfold get_col_index. by rewrite (proj2 (N.eqb_neq _ _) Hne).
Qed.

Section Idempotence.

Context {ext : Externals}.
Hypothesis Hforeign : foreign_idempotent ext.

Lemma resolve_twice (wf : workframe) (e : pexpr) :
  forall e1 r1, resolve wf e = (e1, r1) -> resolve wf e1 = (e1, r1).
Proof.
  destruct Hforeign as [Hreduce Hstring].
  induction e as [| frame_id col_id sel | lhs IHl rhs IHr code | col
                 | arg IH code | arg IH st | opcode | arg _ opcode
                 | opcode arg _ params]; intros e1 r1; cbn [resolve].
  - intros [= <- <-]. reflexivity.
  - unfold expr_column_resolve.
    destruct (get_col_index wf frame_id col_id sel) as [c1 ri] eqn:Hg.
    intros [= <- <-]. cbn [resolve]. unfold expr_column_resolve.
    by rewrite (get_col_index_idempotent _ _ _ _ _ _ Hg).
  - destruct (resolve wf lhs) as [lhs1 rl] eqn:Hl.
    specialize (IHl _ _ eq_refl).
    destruct rl as [s1|ex].
    + destruct (resolve wf rhs) as [rhs1 rr] eqn:Hr.
      specialize (IHr _ _ eq_refl).
      intros [= <- <-]. cbn [resolve]. by rewrite IHl, IHr.
    + intros [= <- <-]. cbn [resolve]. by rewrite IHl.
  - intros [= <- <-]. reflexivity.
  - destruct (resolve wf arg) as [arg1 ra] eqn:Ha.
    specialize (IH _ _ eq_refl).
    intros [= <- <-]. cbn [resolve]. by rewrite IH.
  - destruct (resolve wf arg) as [arg1 ra] eqn:Ha.
    specialize (IH _ _ eq_refl).
    intros [= <- <-]. cbn [resolve]. by rewrite IH.
  - intros [= <- <-]. reflexivity.
  - destruct (reduce_resolve wf arg opcode) as [arg1 r] eqn:Ha.
    intros [= <- <-]. cbn [resolve]. by rewrite (Hreduce _ _ _ _ _ Ha).
  - destruct (string_fn_resolve wf opcode arg params) as [arg1 r] eqn:Ha.
    intros [= <- <-]. cbn [resolve]. by rewrite (Hstring _ _ _ _ _ _ Ha).
Qed.

End Idempotence.

(** C8: [resolve] is idempotent on every node: called again on the node the
    first call left, with the same workframe, it returns the same storage
    type (or throws the same exception) and leaves the node as it is, so a
    following [evaluate_eager] gives the same column; and a column reference
    whose cache holds an index is never written again.  The two node classes
    of other files are taken to resolve idempotently themselves. *)
Theorem resolve_idempotent {ext : Externals} (wf : workframe) (e e1 : pexpr)
    (r1 : result SType) :
  foreign_idempotent ext ->
  resolve wf e = (e1, r1) ->
  resolve wf e1 = (e1, r1)
  ∧ evaluate_eager wf (resolve wf e1).1 = evaluate_eager wf e1
  ∧ (forall wf' frame_id col_id sel,
       col_id ≠ size_minus_one ->
       (resolve wf' (ExprColumn frame_id col_id sel)).1
       = ExprColumn frame_id col_id sel).
Proof.
  intros Hforeign Hfirst.
  pose proof (resolve_twice Hforeign wf e e1 r1 Hfirst) as Hsecond.
  split; [exact Hsecond|]. split.
  - by rewrite Hsecond.
  - intros wf' frame_id col_id sel Hne. cbn. unfold expr_column_resolve.
    by rewrite get_col_index_cached.
Qed.

Lemma resolve_idempotent_witness :
  foreign_idempotent stub_externals
  ∧ resolve (ext := stub_externals) five_column_workframe last_column_plus_literal
    = (expr_binaryop (biop.code biop.PLUS)
         (ExprColumn 0 4 (PyInt (-1)))
         (expr_unaryop (unop.code unop.MINUS) (literal_of INT32)),
       Ok INT32)
  ∧ resolve (ext := stub_externals) five_column_workframe
      (expr_binaryop (biop.code biop.PLUS)
         (ExprColumn 0 4 (PyInt (-1)))
         (expr_unaryop (unop.code unop.MINUS) (literal_of INT32)))
    = (expr_binaryop (biop.code biop.PLUS)
         (ExprColumn 0 4 (PyInt (-1)))
         (expr_unaryop (unop.code unop.MINUS) (literal_of INT32)),
       Ok INT32).
Proof.
  assert (Hf : foreign_idempotent stub_externals).
  { split; cbn; intros; congruence. }
  assert (H1 : resolve (ext := stub_externals) five_column_workframe
                 last_column_plus_literal
               = (expr_binaryop (biop.code biop.PLUS)
                    (ExprColumn 0 4 (PyInt (-1)))
                    (expr_unaryop (unop.code unop.MINUS) (literal_of INT32)),
                  Ok INT32)) by (vm_compute; reflexivity).
  split; [exact Hf|]. split; [exact H1|].
  exact (proj1 (resolve_idempotent (ext := stub_externals) five_column_workframe
                  _ _ _ Hf H1)).
Defined.

(** ** The node factory *)

Lemma switch_case_code (c : exprCode) : switch_case (exprCode_code c) = Some c.
Proof. destruct c; reflexivity. Qed.

Lemma check_args_count_mismatch (va : list robj) (n : N) :
  N.of_nat (length va) ≠ n ->
  check_args_count va n
  = Raise (TypeError (count_mismatch n (N.of_nat (length va)))).
Proof.
  intros Hne. unfold check_args_count.
  by rewrite (proj2 (N.eqb_neq _ _) Hne).
Qed.

Lemma check_args_count_match (va : list robj) (n : N) :
  N.of_nat (length va) = n -> check_args_count va n = Ok tt.
Proof. intros <-. unfold check_args_count. by rewrite N.eqb_refl. Qed.

Lemma to_base_expr_offender (o : robj) (h : heap) :
  is_base_expr o = false ->
  to_base_expr o h = (h, Raise (TypeError (not_a_base_expr o))).
Proof. destruct o; try discriminate; reflexivity. Qed.

Lemma to_base_expr_live (a : N) (h : heap) :
  is_Some (h !! a) ->
  exists e, to_base_expr (PyBaseExpr a) h = (<[a := null_expr]> h, Ok e).
Proof. intros [e He]. exists e. cbn. unfold release. by rewrite He. Qed.

Section FactoryChecks.

Context {ext : Externals}.

Lemma build_count_mismatch (c : exprCode) (va : list robj) (h : heap) :
  N.of_nat (length va) ≠ arity c ->
  build (exprCode_code c) va h
  = (h, Raise (TypeError (count_mismatch (arity c) (N.of_nat (length va))))).
Proof.
  intros Hne. unfold build. rewrite switch_case_code.
  destruct c; cbn [arity] in Hne |- *; unfold fbind, lift;
    rewrite (check_args_count_mismatch va _ Hne); reflexivity.
Qed.

End FactoryChecks.
Section FactoryOffender.

Context {ext : Externals}.

Lemma build_offender (c : exprCode) (va : list robj) (h : heap) (o : robj) :
  N.of_nat (length va) = arity c ->
  allocated h va ->
  leading_code_converts c va ->
  first_offender c va = Some o ->
  (build (exprCode_code c) va h).2 = Raise (TypeError (not_a_base_expr o)).
Proof.
  intros Hlen Hlive Hlead Hoff. unfold build. rewrite switch_case_code.
  assert (Hcode : c ≠ CAST ->
            exists v0 n, va !! 0%nat = Some v0 ∧ to_size_t v0 = Ok n)
    by exact Hlead.
  destruct c; cbn [arity] in Hlen; try discriminate Hoff;
    destruct va as [|v0 [|v1 [|v2 [|v3 va]]]]; try (cbn in Hlen; lia);
    unfold fbind, lift, base_expr_arg, va_at;
    rewrite (check_args_count_match _ _ Hlen);
    cbn [lookup list_lookup bind];
    try (destruct (Hcode ltac:(discriminate)) as (v & n & Hv & Hn);
         injection Hv as <-; rewrite Hn).
  - (* BINOP *)
    offender v1 Hoff.
    destruct (to_base_expr_live a h) as [e ->].
    { apply Hlive. set_solver. }
    offender v2 Hoff.
  - (* UNOP *) offender v1 Hoff.
  - (* CAST *) offender v0 Hoff.
  - (* UNREDUCE *) offender v1 Hoff.
  - (* STRINGFN *) offender v1 Hoff.
Qed.

End FactoryOffender.

Lemma allocated_insert (h : heap) (va : list robj) (self : N) (e : pexpr) :
  allocated h va -> allocated (<[self := e]> h) va.
Proof.
  intros Hlive a Ha. rewrite lookup_insert_is_Some.
  destruct (decide (self = a)); [by left|right]. split; [done|by apply Hlive].
Qed.

(** C9: the factory raises TypeError, naming the expected and the received
    number of arguments, whenever the number of variadic arguments differs
    from the arity of the node kind (ColumnRef 2, BinaryOp 3, Literal 1,
    UnaryOp 2, Cast 2, NullaryReduce 1, StringFn 3; the unary reduction 2);
    and with the right number of arguments it raises TypeError on the first
    argument in a subexpression position that is no [py::base_expr]
    object. *)
Theorem factory_checks_arguments {ext : Externals} (c : exprCode) (self : N)
    (args0 : robj) (va : list robj) (h : heap) :
  to_size_t args0 = Ok (exprCode_code c) ->
  (N.of_nat (length va) ≠ arity c ->
     m__init__ self args0 va h
     = (<[self := null_expr]> h,
        Raise (TypeError (count_mismatch (arity c) (N.of_nat (length va))))))
  ∧ (N.of_nat (length va) = arity c ->
     allocated h va ->
     leading_code_converts c va ->
     forall o, first_offender c va = Some o ->
       (m__init__ self args0 va h).2 = Raise (TypeError (not_a_base_expr o))).
Proof.
  intros Hcode. unfold m__init__, fbind, lift. rewrite Hcode. split.
  - intros Hne. by rewrite build_count_mismatch.
  - intros Hlen Hlive Hlead o Hoff.
    pose proof (build_offender c va (<[self := null_expr]> h) o Hlen
                  (allocated_insert _ _ _ _ Hlive) Hlead Hoff) as Hb.
    destruct (build (exprCode_code c) va (<[self := null_expr]> h)) as [h' r].
    cbn in Hb. subst r. reflexivity.
Qed.

Lemma factory_checks_arguments_witness :
  to_size_t (PyInt 2) = Ok (exprCode_code BINOP)
  ∧ N.of_nat (length [PyInt 1; PyBaseExpr 10]) ≠ arity BINOP
  ∧ m__init__ (ext := stub_externals) 11 (PyInt 2) [PyInt 1; PyBaseExpr 10]
      one_literal_heap
    = (<[11 := null_expr]> one_literal_heap,
       Raise (TypeError [MStr "Expected "; MSize 3;
                         MStr " additional arguments, but received ";
                         MSize 2]))
  ∧ (N.of_nat (length [PyInt 1; PyBaseExpr 10; PyStr "x"]) = arity BINOP
     ∧ allocated one_literal_heap [PyInt 1; PyBaseExpr 10; PyStr "x"]
     ∧ leading_code_converts BINOP [PyInt 1; PyBaseExpr 10; PyStr "x"]
     ∧ first_offender BINOP [PyInt 1; PyBaseExpr 10; PyStr "x"]
       = Some (PyStr "x"))
  ∧ (m__init__ (ext := stub_externals) 11 (PyInt 2)
       [PyInt 1; PyBaseExpr 10; PyStr "x"] one_literal_heap).2
    = Raise (TypeError [MStr "Expected a base_expr object, but got ";
                        MTypeObj (PyStr "x")]).
Proof.
  assert (Hne : N.of_nat (length [PyInt 1; PyBaseExpr 10]) ≠ arity BINOP)
    by discriminate.
  assert (Hlive : allocated one_literal_heap [PyInt 1; PyBaseExpr 10; PyStr "x"]).
  { intros a Ha. apply list_elem_of_In in Ha. cbn in Ha.
    destruct Ha as [Ha|[Ha|[Ha|[]]]]; try discriminate.
    injection Ha as <-. by eexists. }
  assert (Hlead : leading_code_converts BINOP [PyInt 1; PyBaseExpr 10; PyStr "x"]).
  { intros _. exists (PyInt 1), 1. by split. }
  split; [reflexivity|]. split; [exact Hne|]. split.
  - exact (proj1 (factory_checks_arguments (ext := stub_externals) BINOP 11
                    (PyInt 2) [PyInt 1; PyBaseExpr 10] one_literal_heap eq_refl)
             Hne).
  - split; [by repeat split|].
    exact (proj2 (factory_checks_arguments (ext := stub_externals) BINOP 11
                    (PyInt 2) [PyInt 1; PyBaseExpr 10; PyStr "x"]
                    one_literal_heap eq_refl)
             eq_refl Hlive Hlead (PyStr "x") eq_refl).
Defined.

(** ** Further properties of the tables and the nodes *)

(** The first call of [get_col_index] on a node: either it throws and the
    cache stays at [size_t(-1)], or it returns a column of the frame, which
    it caches.  The assertion that ends the call fails for no int and no
    string selector. *)
Lemma first_lookup_outcome (wf : workframe) (frame_id : N) (sel : robj)
    (c1 : N) (r1 : result N) :
  get_col_index wf frame_id size_minus_one sel = (c1, r1) ->
  (c1 = size_minus_one
   ∧ exists ex, r1 = Raise ex
                ∧ (is_int sel || is_string sel = true -> lookup_error ex))
  ∨ (exists dt, get_datatable wf frame_id = Ok dt ∧ c1 < ncols dt ∧ r1 = Ok c1).
Proof.
  unfold get_col_index, lookup_error. rewrite N.eqb_refl.
  destruct (N.leb_spec (nframes wf) frame_id) as [Hf|Hf].
  { intros [= <- <-]. left. split; [reflexivity|]. eauto 6. }
  destruct (get_datatable wf frame_id) as [dt|e] eqn:Hdt.
  2:{ exfalso. unfold get_datatable, nframes in *.
      destruct (lookup_lt_is_Some_2 (wf_frames wf) (N.to_nat frame_id))
        as [[dt ri] Hl]; [lia|].
      rewrite Hl in Hdt. discriminate. }
  destruct sel as [z | name | addr |]; cbn [is_int is_string orb].
  - cbn [to_int64_strict].
    destruct ((- 2 ^ 63 <=? z) && (z <? 2 ^ 63))%Z; cbn [bind].
    2:{ intros [= <- <-]. left. split; [reflexivity|]. eauto. }
    destruct ((z <? wrap64 (- to_int64 (ncols dt)))
              || (to_int64 (ncols dt) <=? z))%Z eqn:Hcheck.
    { intros [= <- <-]. left. split; [reflexivity|]. eauto 6. }
    pose proof (checked_index_below_ncols z (ncols dt) Hcheck) as Hlt.
    cbn zeta in Hlt. rewrite (proj2 (N.ltb_lt _ _) Hlt).
    intros [= <- <-]. right. eauto.
  - destruct (xcolindex dt (PyStr name)) as [i|e] eqn:Hx.
    + pose proof (xcolindex_below_ncols _ _ _ Hx) as Hlt.
      rewrite (proj2 (N.ltb_lt _ _) Hlt).
      intros [= <- <-]. right. eauto.
    + intros [= <- <-]. left. split; [reflexivity|].
      exists e. split; [reflexivity|]. intros _.
      unfold xcolindex in Hx.
      destruct (name_index name (dt_columns dt)); [discriminate|].
      injection Hx as <-. eauto.
  - destruct (N.ltb_spec size_minus_one (ncols dt)) as [Hlt|Hge].
    + intros [= <- <-]. right. eauto.
    + intros [= <- <-]. left. split; [reflexivity|].
      exists AssertionError. split; [reflexivity|discriminate].
  - destruct (N.ltb_spec size_minus_one (ncols dt)) as [Hlt|Hge].
    + intros [= <- <-]. right. eauto.
    + intros [= <- <-]. left. split; [reflexivity|].
      exists AssertionError. split; [reflexivity|discriminate].
Qed.

(** A call of [get_col_index] keeps a cache that is [size_t(-1)] or a column
    of the frame such, whatever it returns or throws; and what it returns is
    a column of the frame. *)
Lemma get_col_index_keeps_cache_in_frame (wf : workframe)
    (frame_id col_id : N) (sel : robj) (c1 : N) (r1 : result N) :
  get_col_index wf frame_id col_id sel = (c1, r1) ->
  cache_in_frame wf (frame_id, col_id) ->
  cache_in_frame wf (frame_id, c1)
  ∧ (forall i, r1 = Ok i -> in_frame wf (frame_id, c1)).
Proof.
  intros Hg Hcache.
  destruct (N.eqb_spec col_id size_minus_one) as [->|Hne].
  - destruct (first_lookup_outcome _ _ _ _ _ Hg)
      as [(-> & ex & -> & _)|(dt & Hdt & Hlt & ->)].
    + split; [by left|discriminate].
    + assert (Hin : in_frame wf (frame_id, c1)) by (exists dt; by split).
      split; [by right|by intros _ _].
  - rewrite (get_col_index_cached _ _ _ _ Hne) in Hg.
    injection Hg as <- <-.
    destruct Hcache as [Hs|Hin]; [contradiction|].
    split; [by right|by intros _ _].
Qed.

(** X1: resolving a freshly built column reference whose selector is an int
    or a string never reads the columns of the frame out of bounds and never
    fails the assertion of [get_col_index].  Either the call throws the
    ValueError of an invalid reference (or what the conversion of the
    selector throws) and the reference stays unresolved, or it returns the
    storage type of a column of the frame, whose index the reference then
    holds. *)
Theorem fresh_reference_resolves_within_frame {ext : Externals}
    (wf : workframe) (frame_id : N) (sel : robj) :
  is_int sel || is_string sel = true ->
  (exists ex,
     resolve wf (expr_column frame_id sel)
     = (expr_column frame_id sel, Raise ex)
     ∧ lookup_error ex)
  ∨ (exists dt c col,
       get_datatable wf frame_id = Ok dt
       ∧ c < ncols dt
       ∧ columns_at dt c = Ok col
       ∧ referenced_column wf frame_id sel = Some c
       ∧ resolve wf (expr_column frame_id sel)
         = (ExprColumn frame_id c sel, Ok (col_stype col))).
Proof.
  intros Hsel. cbn [expr_column resolve].
  unfold expr_column_resolve, referenced_column.
  destruct (get_col_index wf frame_id size_minus_one sel) as [c1 r1] eqn:Hg.
  destruct (first_lookup_outcome _ _ _ _ _ Hg)
    as [(-> & ex & -> & Hex)|(dt & Hdt & Hlt & ->)].
  - left. exists ex. split; [reflexivity|exact (Hex Hsel)].
  - right. destruct (columns_at_in_range dt c1 Hlt) as [col Hcol].
    exists dt, c1, col. cbn [bind]. rewrite Hdt. cbn [bind]. rewrite Hcol.
    by repeat split.
Qed.

Lemma fresh_reference_resolves_within_frame_witness :
  (is_int (PyStr "d") || is_string (PyStr "d") = true
   ∧ is_int (PyInt 5) || is_string (PyInt 5) = true)
  ∧ (exists dt c col,
       get_datatable five_column_workframe 0 = Ok dt
       ∧ c < ncols dt
       ∧ columns_at dt c = Ok col
       ∧ referenced_column five_column_workframe 0 (PyStr "d") = Some c
       ∧ resolve (ext := stub_externals) five_column_workframe
           (expr_column 0 (PyStr "d"))
         = (ExprColumn 0 c (PyStr "d"), Ok (col_stype col)))
  ∧ (exists ex,
       resolve (ext := stub_externals) five_column_workframe
         (expr_column 0 (PyInt 5))
       = (expr_column 0 (PyInt 5), Raise ex)
       ∧ lookup_error ex).
Proof.
  split; [by split|]. split.
  - destruct (fresh_reference_resolves_within_frame (ext := stub_externals)
                five_column_workframe 0 (PyStr "d") eq_refl)
      as [(ex & Hres & _)|Hres]; [|exact Hres].
    exfalso.
    assert (H : resolve (ext := stub_externals) five_column_workframe
                  (expr_column 0 (PyStr "d"))
                = (ExprColumn 0 3 (PyStr "d"), Ok STR32)) by reflexivity.
    rewrite H in Hres. discriminate Hres.
  - destruct (fresh_reference_resolves_within_frame (ext := stub_externals)
                five_column_workframe 0 (PyInt 5) eq_refl)
      as [Hres|(dt & c & col & _ & _ & _ & _ & Hres)]; [exact Hres|].
    exfalso.
    assert (H : resolve (ext := stub_externals) five_column_workframe
                  (expr_column 0 (PyInt 5))
                = (expr_column 0 (PyInt 5),
                   Raise (ValueError (invalid_index 5 5)))) by reflexivity.
    rewrite H in Hres. discriminate Hres.
Defined.

(** X2: a column reference whose cache is consistent with the workframe, when
    [size_t(-1)] is no grouping key column, is PerGroup only if it refers to
    frame 0, a grouping is active and the column it resolves to is a
    grouping key column. *)
Theorem per_group_reference_is_key {ext : Externals} (wf : workframe)
    (frame_id col_id : N) (sel : robj) :
  cache_consistent wf frame_id col_id sel ->
  size_minus_one ∉ group_columns (get_by_node wf) ->
  get_groupby_mode wf (ExprColumn frame_id col_id sel) = Ok GtoONE ->
  frame_id = 0 ∧ has_groupby wf = true
  ∧ exists c, referenced_column wf frame_id sel = Some c
              ∧ c ∈ group_columns (get_by_node wf).
Proof.
  intros Hcache Hsentinel Hmode.
  cbn in Hmode. unfold expr_column_get_groupby_mode in Hmode.
  destruct (N.eqb_spec frame_id 0) as [Hf|_]; [|discriminate].
  destruct (has_groupby wf); [|discriminate].
  destruct (has_group_column (get_by_node wf) col_id) eqn:Hkey; [|discriminate].
  apply has_group_column_elem in Hkey.
  split; [exact Hf|]. split; [reflexivity|].
  destruct Hcache as [->|Hc]; [contradiction|]. eauto.
Qed.

Lemma per_group_reference_is_key_witness :
  cache_consistent five_column_workframe 0 4 (PyInt (-1))
  ∧ (size_minus_one ∉ group_columns (get_by_node five_column_workframe))
  ∧ get_groupby_mode (ext := stub_externals) five_column_workframe
      (ExprColumn 0 4 (PyInt (-1))) = Ok GtoONE
  ∧ exists c, referenced_column five_column_workframe 0 (PyInt (-1)) = Some c
              ∧ c ∈ group_columns (get_by_node five_column_workframe).
Proof.
  assert (H1 : cache_consistent five_column_workframe 0 4 (PyInt (-1)))
    by (right; reflexivity).
  assert (H2 : size_minus_one ∉ group_columns (get_by_node five_column_workframe))
    by by_evaluation.
  split; [exact H1|]. split; [exact H2|]. split; [reflexivity|].
  exact (proj2 (proj2 (per_group_reference_is_key (ext := stub_externals)
           five_column_workframe 0 4 (PyInt (-1)) H1 H2 eq_refl))).
Defined.
(** X3: LOGICAL_AND and LOGICAL_OR are typed for BOOL with BOOL only, and
    yield BOOL; on any other pair of operand types the table has no entry
    and [resolve] raises TypeError. *)
Theorem logical_operators_bool_only {ext : Externals} (wf : workframe)
    (op : biop.t) (l r l' r' : pexpr) (s1 s2 : SType) :
  op ∈ logical_ops ->
  resolve wf l = (l', Ok s1) ->
  resolve wf r = (r', Ok s2) ->
  (s1 = BOOL ∧ s2 = BOOL ->
     resolve wf (expr_binaryop (biop.code op) l r)
     = (expr_binaryop (biop.code op) l' r', Ok BOOL))
  ∧ (¬ (s1 = BOOL ∧ s2 = BOOL) ->
     binop_rules !! id_biop_stypes (biop.code op) s1 s2 = None
     ∧ is_TypeError (resolve wf (expr_binaryop (biop.code op) l r)).2).
Proof.
  intros Hop Hl Hr.
  rewrite (resolve_binaryop _ _ _ _ _ _ _ _ Hl Hr), binop_rules_lookup.
  assert (Ht : binop_rule_table op s1 s2
               = if bool_decide (s1 = BOOL) && bool_decide (s2 = BOOL)
                 then Some BOOL else None).
  { revert Hop. unfold logical_ops. rewrite list_elem_of_In. simpl.
    intros [<-|[<-|[]]]; reflexivity. }
  split.
  - intros [-> ->]. f_equal. by apply binop_rule_present.
  - intros Hn.
    assert (Hf : bool_decide (s1 = BOOL) && bool_decide (s2 = BOOL) = false).
    { destruct (decide (s1 = BOOL)) as [H1|H1].
      - rewrite (bool_decide_eq_false_2 (s2 = BOOL)); [apply andb_false_r|tauto].
      - by rewrite (bool_decide_eq_false_2 (s1 = BOOL)). }
    rewrite Hf in Ht. split; [exact Ht | by apply binop_rule_absent].
Qed.

Lemma logical_operators_bool_only_witness :
  biop.LOGICAL_OR ∈ logical_ops
  ∧ resolve (ext := stub_externals) empty_workframe
      (expr_binaryop (biop.code biop.LOGICAL_OR) (literal_of BOOL) (literal_of BOOL))
    = (expr_binaryop (biop.code biop.LOGICAL_OR) (literal_of BOOL) (literal_of BOOL),
       Ok BOOL)
  ∧ is_TypeError
      (resolve (ext := stub_externals) empty_workframe
         (expr_binaryop (biop.code biop.LOGICAL_OR) (literal_of BOOL) (literal_of INT8))).2.
Proof.
  assert (Hop : biop.LOGICAL_OR ∈ logical_ops) by by_evaluation.
  split; [exact Hop|]. split.
  - exact (proj1 (logical_operators_bool_only (ext := stub_externals)
             empty_workframe biop.LOGICAL_OR (literal_of BOOL) (literal_of BOOL)
             _ _ BOOL BOOL Hop eq_refl eq_refl) (conj eq_refl eq_refl)).
  - refine (proj2 (proj2 (logical_operators_bool_only (ext := stub_externals)
             empty_workframe biop.LOGICAL_OR (literal_of BOOL) (literal_of INT8)
             _ _ BOOL INT8 Hop eq_refl eq_refl) _)).
    intros [_ H]. discriminate H.
Defined.

(** X4: each of the six relational operators yields BOOL on every pair of
    numeric operands. *)
Theorem relations_of_numbers_yield_bool {ext : Externals} (wf : workframe)
    (op : biop.t) (l r l' r' : pexpr) (s1 s2 : SType) :
  op ∈ relational_ops ->
  s1 ∈ numeric_stypes ->
  s2 ∈ numeric_stypes ->
  resolve wf l = (l', Ok s1) ->
  resolve wf r = (r', Ok s2) ->
  resolve wf (expr_binaryop (biop.code op) l r)
  = (expr_binaryop (biop.code op) l' r', Ok BOOL).
Proof.
  intros Hop H1 H2 Hl Hr.
  rewrite (resolve_binaryop _ _ _ _ _ _ _ _ Hl Hr). f_equal.
  apply binop_rule_present.
  pose proof (both_in_true _ _ _ H1 H2) as Hn.
  revert Hop. unfold relational_ops. rewrite list_elem_of_In. simpl.
  intros [<-|[<-|[<-|[<-|[<-|[<-|[]]]]]]]; simpl; by rewrite Hn.
Qed.

Lemma relations_of_numbers_yield_bool_witness :
  biop.REL_LT ∈ relational_ops
  ∧ (INT8 ∈ numeric_stypes ∧ FLOAT32 ∈ numeric_stypes)
  ∧ resolve (ext := stub_externals) empty_workframe
      (expr_binaryop (biop.code biop.REL_LT) (literal_of INT8) (literal_of FLOAT32))
    = (expr_binaryop (biop.code biop.REL_LT) (literal_of INT8) (literal_of FLOAT32),
       Ok BOOL).
Proof.
  assert (Hop : biop.REL_LT ∈ relational_ops) by by_evaluation.
  assert (H1 : INT8 ∈ numeric_stypes) by in_styvec.
  assert (H2 : FLOAT32 ∈ numeric_stypes) by in_styvec.
  split; [exact Hop|]. split; [by split|].
  exact (relations_of_numbers_yield_bool (ext := stub_externals)
           empty_workframe biop.REL_LT (literal_of INT8) (literal_of FLOAT32)
           _ _ INT8 FLOAT32 Hop H1 H2 eq_refl eq_refl).
Defined.

(** X5: the unary table.  ISNA yields BOOL on each of the nine storage types
    [init_unops] lists (OBJECT has no entry); INVERT keeps BOOL and the four
    integer types and has no entry for the floats; EXP, LOGE and LOG10 yield
    FLOAT64 on every numeric type; LEN yields INT32 on STR32 and INT64 on
    STR64 and has no entry elsewhere. *)
Theorem unary_rules_by_family :
  (forall s, unop_rules !! id_unop_stype (unop.code unop.ISNA) s
             = if bool_decide (s = OBJECT) then None else Some BOOL)
  ∧ (forall s, unop_rules !! id_unop_stype (unop.code unop.INVERT) s
               = if bool_decide (s = BOOL) || bool_decide (s ∈ integer_stypes)
                 then Some s else None)
  ∧ (forall op s, op ∈ float_functions ->
       unop_rules !! id_unop_stype (unop.code op) s
       = if bool_decide (s ∈ numeric_stypes) then Some FLOAT64 else None)
  ∧ (forall s, unop_rules !! id_unop_stype (unop.code unop.LEN) s
               = match s with
                 | STR32 => Some INT32
                 | STR64 => Some INT64
                 | _ => None
                 end).
Proof.
  repeat split.
  - intros s. rewrite unop_rules_lookup. by destruct s.
  - intros s. rewrite unop_rules_lookup. by destruct s.
  - intros op s. unfold float_functions. rewrite list_elem_of_In. simpl.
    intros [<-|[<-|[<-|[]]]]; by rewrite unop_rules_lookup.
  - intros s. by rewrite unop_rules_lookup.
Qed.

(** X6: running the initialisation of the rule tables again on the tables it
    has built changes nothing. *)
Theorem init_rules_idempotent :
  init_binop_rules binop_rules = binop_rules
  ∧ init_unop_rules unop_rules = unop_rules.
Proof.
  rewrite binop_rules_evaluated, unop_rules_evaluated.
  split; by_evaluation.
Qed.

(** X7: the binary table is symmetric in its operand types: an operator is
    typed on (s1, s2) exactly when it is typed on (s2, s1), with the same
    result type. *)
Theorem binop_rules_symmetric (op : biop.t) (s1 s2 : SType) :
  binop_rules !! id_biop_stypes (biop.code op) s1 s2
  = binop_rules !! id_biop_stypes (biop.code op) s2 s1
  ∧ (forall st, binop_rule (biop.code op) s1 s2 = Ok st
                <-> binop_rule (biop.code op) s2 s1 = Ok st).
Proof.
  assert (Hsym : binop_rule_table op s1 s2 = binop_rule_table op s2 s1)
    by (destruct op, s1, s2; reflexivity).
  split; [by rewrite !binop_rules_lookup|].
  intros st. unfold binop_rule. rewrite !binop_rules_lookup, Hsym.
  destruct (binop_rule_table op s2 s1); [tauto|].
  destruct (binop_names_defined op) as [name ->]. split; discriminate.
Qed.

(** ** The keys of the tables *)

Lemma stype_code_small (s : SType) : stype_code s < 256.
Proof. destruct s; reflexivity. Qed.

Lemma stype_code_inj (s s' : SType) : stype_code s = stype_code s' -> s = s'.
Proof. destruct s, s'; (reflexivity || discriminate). Qed.

Lemma stype_of_code_Some (c : N) (s : SType) :
  stype_of_code c = Some s -> stype_code s = c.
Proof.
  unfold stype_of_code. intros Hf. apply find_some in Hf as [_ Hc].
  by apply N.eqb_eq.
Qed.

Lemma biop_of_code_Some (c : N) (op : biop.t) :
  biop_of_code c = Some op -> biop.code op = c.
Proof.
  unfold biop_of_code. intros Hf. apply find_some in Hf as [_ Hc].
  by apply N.eqb_eq.
Qed.

Lemma unop_of_code_Some (c : N) (op : unop.t) :
  unop_of_code c = Some op -> unop.code op = c.
Proof.
  unfold unop_of_code. intros Hf. apply find_some in Hf as [_ Hc].
  by apply N.eqb_eq.
Qed.

(** The key of the binary table without the wrap-around: only the low 48 bits
    of the operator code reach it. *)
Lemma id_biop_stypes_value (c : N) (s1 s2 : SType) :
  id_biop_stypes c s1 s2
  = (c mod 2 ^ 48) * 65536 + stype_code s1 * 256 + stype_code s2.
Proof.
  pose proof (stype_code_small s1) as H1.
  pose proof (stype_code_small s2) as H2.
  unfold id_biop_stypes, size_add, size_shl, size_wrap, size_modulus.
  rewrite !N.shiftl_mul_pow2.
  change (2 ^ 64) with (2 ^ 48 * 2 ^ 16).
  rewrite N.Div0.mul_mod_distr_r.
  change (2 ^ 16) with 65536. change (2 ^ 8) with 256.
  change (2 ^ 48 * 65536) with 18446744073709551616.
  pose proof (N.mod_upper_bound c (2 ^ 48) ltac:(discriminate)) as Hc.
  change (2 ^ 48) with 281474976710656 in *.
  rewrite (N.mod_small (stype_code s1 * 256)) by lia.
  rewrite (N.mod_small (c mod 281474976710656 * 65536 + stype_code s1 * 256))
    by lia.
  rewrite N.mod_small by lia. reflexivity.
Qed.

Lemma id_unop_stype_value (c : N) (s : SType) :
  id_unop_stype c s = (c mod 2 ^ 56) * 256 + stype_code s.
Proof.
  pose proof (stype_code_small s) as H1.
  unfold id_unop_stype, size_add, size_shl, size_wrap, size_modulus.
  rewrite !N.shiftl_mul_pow2.
  change (2 ^ 64) with (2 ^ 56 * 2 ^ 8).
  rewrite N.Div0.mul_mod_distr_r.
  change (2 ^ 8) with 256.
  change (2 ^ 56 * 256) with 18446744073709551616.
  pose proof (N.mod_upper_bound c (2 ^ 56) ltac:(discriminate)) as Hc.
  change (2 ^ 56) with 72057594037927936 in *.
  rewrite N.mod_small by lia. reflexivity.
Qed.

Lemma id_biop_stypes_eq_iff (c c' : N) (s1 s2 s1' s2' : SType) :
  id_biop_stypes c s1 s2 = id_biop_stypes c' s1' s2'
  <-> c mod 2 ^ 48 = c' mod 2 ^ 48 ∧ s1 = s1' ∧ s2 = s2'.
Proof.
  rewrite !id_biop_stypes_value.
  pose proof (stype_code_small s1). pose proof (stype_code_small s2).
  pose proof (stype_code_small s1'). pose proof (stype_code_small s2').
  split.
  - intros Heq.
    assert (Hparts : c mod 2 ^ 48 = c' mod 2 ^ 48
                     ∧ stype_code s1 = stype_code s1'
                     ∧ stype_code s2 = stype_code s2') by lia.
    destruct Hparts as (Hc & Hs1 & Hs2).
    auto using stype_code_inj.
  - intros (-> & -> & ->). reflexivity.
Qed.

(** X8: two keys of the binary rule table are equal exactly when the operand
    types are the same and the operator codes agree modulo 2^48: the shift
    by 16 drops the high bits of a code, and nothing else is confused. *)
Theorem binop_keys_coincide (c c' : N) (s1 s2 s1' s2' : SType) :
  id_biop_stypes c s1 s2 = id_biop_stypes c' s1' s2'
  <-> c mod 2 ^ 48 = c' mod 2 ^ 48 ∧ s1 = s1' ∧ s2 = s2'.
Proof. apply id_biop_stypes_eq_iff. Qed.

Lemma binop_keys_known :
  map_Forall (fun k _ => binop_key_known k = true) binop_rules.
Proof. rewrite binop_rules_evaluated. by_evaluation. Qed.

Lemma unop_keys_known :
  map_Forall (fun k _ => unop_key_known k = true) unop_rules.
Proof. rewrite unop_rules_evaluated. by_evaluation. Qed.

Lemma binop_values_numeric :
  map_Forall (fun _ st => st ∈ numeric_stypes) binop_rules.
Proof. rewrite binop_rules_evaluated. by_evaluation. Qed.

Lemma unop_values_numeric :
  map_Forall (fun _ st => st ∈ numeric_stypes) unop_rules.
Proof. rewrite unop_rules_evaluated. by_evaluation. Qed.

Lemma split_three_bytes (k : N) :
  k = (k / 65536) * 65536 + ((k / 256) mod 256) * 256 + k mod 256.
Proof.
  pose proof (N.div_mod k 256 ltac:(discriminate)) as H1.
  pose proof (N.div_mod (k / 256) 256 ltac:(discriminate)) as H2.
  rewrite N.Div0.div_div in H2. change (256 * 256) with 65536 in H2. lia.
Qed.

Lemma biop_code_small (op : biop.t) : biop.code op < 18.
Proof. destruct op; reflexivity. Qed.

Lemma unop_code_small (op : unop.t) : unop.code op < 10.
Proof. destruct op; reflexivity. Qed.

(** Every key of the binary table is the key of an operator of the
    enumeration on two storage types. *)
Lemma binop_rules_domain (k : N) (st : SType) :
  binop_rules !! k = Some st ->
  exists op s1 s2, k = id_biop_stypes (biop.code op) s1 s2.
Proof.
  intros Hk. pose proof (binop_keys_known k st Hk) as Hknown.
  unfold binop_key_known in Hknown.
  destruct (biop_of_code (k / 65536)) as [op|] eqn:Hop; [|discriminate].
  destruct (stype_of_code ((k / 256) mod 256)) as [s1|] eqn:H1; [|discriminate].
  destruct (stype_of_code (k mod 256)) as [s2|] eqn:H2; [|discriminate].
  exists op, s1, s2. rewrite id_biop_stypes_value.
  apply biop_of_code_Some in Hop. apply stype_of_code_Some in H1, H2.
  pose proof (biop_code_small op) as Hsmall.
  rewrite (N.mod_small (biop.code op)).
  - rewrite Hop, H1, H2. apply split_three_bytes.
  - change (2 ^ 48) with 281474976710656. lia.
Qed.

Lemma unop_rules_domain (k : N) (st : SType) :
  unop_rules !! k = Some st ->
  exists op s, k = id_unop_stype (unop.code op) s.
Proof.
  intros Hk. pose proof (unop_keys_known k st Hk) as Hknown.
  unfold unop_key_known in Hknown.
  destruct (unop_of_code (k / 256)) as [op|] eqn:Hop; [|discriminate].
  destruct (stype_of_code (k mod 256)) as [s|] eqn:H1; [|discriminate].
  exists op, s. rewrite id_unop_stype_value.
  apply unop_of_code_Some in Hop. apply stype_of_code_Some in H1.
  pose proof (unop_code_small op) as Hsmall.
  rewrite (N.mod_small (unop.code op)).
  - rewrite Hop, H1.
    pose proof (N.div_mod k 256 ltac:(discriminate)). lia.
  - change (2 ^ 56) with 72057594037927936. lia.
Qed.

Lemma binop_names_length : length binop_names = 18%nat.
Proof. reflexivity. Qed.

Lemma unop_names_length : length unop_names = 10%nat.
Proof. reflexivity. Qed.

(** X9: a binary node whose operator code resolves to a type carries, modulo
    2^48, the code of one of the seventeen operators, and gets the type the
    table gives that operator: no other code is ever typed, and a code with
    high bits set is typed as the operator its low 48 bits name. *)
Theorem typed_binary_code_is_an_operator (c : N) (s1 s2 st : SType) :
  binop_rule c s1 s2 = Ok st ->
  exists op, c mod 2 ^ 48 = biop.code op
             ∧ binop_rule (biop.code op) s1 s2 = Ok st.
Proof.
  unfold binop_rule at 1.
  destruct (binop_rules !! id_biop_stypes c s1 s2) as [st'|] eqn:Hk.
  - intros [= ->].
    destruct (binop_rules_domain _ _ Hk) as (op & s1' & s2' & Hkey).
    apply id_biop_stypes_eq_iff in Hkey as (Hc & <- & <-).
    exists op. split.
    + rewrite Hc. apply N.mod_small.
      pose proof (biop_code_small op). change (2 ^ 48) with 281474976710656. lia.
    + unfold binop_rule.
      replace (id_biop_stypes (biop.code op) s1 s2) with (id_biop_stypes c s1 s2).
      * by rewrite Hk.
      * apply id_biop_stypes_eq_iff. repeat split. exact Hc.
  - destruct (binop_names !! N.to_nat c); discriminate.
Qed.

Lemma typed_binary_code_is_an_operator_witness :
  binop_rule plus_beyond_48_bits INT8 INT16 = Ok INT16
  ∧ exists op, plus_beyond_48_bits mod 2 ^ 48 = biop.code op
               ∧ binop_rule (biop.code op) INT8 INT16 = Ok INT16.
Proof.
  assert (H : binop_rule plus_beyond_48_bits INT8 INT16 = Ok INT16).
  { unfold binop_rule.
    replace (id_biop_stypes plus_beyond_48_bits INT8 INT16)
      with (id_biop_stypes (biop.code biop.PLUS) INT8 INT16) by reflexivity.
    by rewrite binop_rules_lookup. }
  split; [exact H|].
  exact (typed_binary_code_is_an_operator plus_beyond_48_bits INT8 INT16 INT16 H).
Defined.

(** X10: a binary node whose operator code is, modulo 2^48, none of the
    operator codes has no rule on any operand types; [resolve] then reads
    [binop_names] at the code, which is outside the vector as soon as the
    code is 18 or more. *)
Theorem unknown_binary_code_has_no_rule (c : N) (s1 s2 : SType) :
  (forall op, c mod 2 ^ 48 ≠ biop.code op) ->
  binop_rules !! id_biop_stypes c s1 s2 = None
  ∧ (c < 18 -> is_TypeError (binop_rule c s1 s2))
  ∧ (18 <= c -> binop_rule c s1 s2 = Raise UndefinedBehaviour).
Proof.
  intros Hnone.
  assert (Hk : binop_rules !! id_biop_stypes c s1 s2 = None).
  { destruct (binop_rules !! id_biop_stypes c s1 s2) as [st|] eqn:Hk;
      [exfalso|reflexivity].
    destruct (binop_rules_domain _ _ Hk) as (op & s1' & s2' & Hkey).
    apply id_biop_stypes_eq_iff in Hkey as (Hc & _ & _).
    apply (Hnone op). rewrite Hc. apply N.mod_small.
    pose proof (biop_code_small op). change (2 ^ 48) with 281474976710656. lia. }
  split; [exact Hk|]. unfold binop_rule. rewrite Hk. split.
  - intros Hc.
    destruct (lookup_lt_is_Some_2 binop_names (N.to_nat c)) as [name ->];
      [rewrite binop_names_length; lia | exact I].
  - intros Hc. rewrite (proj2 (lookup_ge_None binop_names (N.to_nat c)));
      [reflexivity | rewrite binop_names_length; lia].
Qed.

Lemma unknown_binary_code_has_no_rule_witness :
  (forall op, 99 mod 2 ^ 48 ≠ biop.code op)
  ∧ binop_rules !! id_biop_stypes 99 INT8 INT8 = None
  ∧ binop_rule 99 INT8 INT8 = Raise UndefinedBehaviour.
Proof.
  assert (H : forall op, 99 mod 2 ^ 48 ≠ biop.code op)
    by (intros op; destruct op; discriminate).
  split; [exact H|].
  destruct (unknown_binary_code_has_no_rule 99 INT8 INT8 H) as (Hk & _ & Hub).
  split; [exact Hk|]. apply Hub. discriminate.
Defined.

(** X11: a unary node whose operator code resolves to a type carries, modulo
    2^56 (the key keeps the low 56 bits of the code), the code of one of the
    nine unary operators, and gets the type the table gives that operator. *)
Theorem typed_unary_code_is_an_operator (c : N) (s st : SType) :
  unop_rule c s = Ok st ->
  exists op, c mod 2 ^ 56 = unop.code op
             ∧ unop_rule (unop.code op) s = Ok st.
Proof.
  unfold unop_rule at 1.
  destruct (unop_rules !! id_unop_stype c s) as [st'|] eqn:Hk.
  - intros [= ->].
    destruct (unop_rules_domain _ _ Hk) as (op & s' & Hkey).
    rewrite !id_unop_stype_value in Hkey.
    pose proof (stype_code_small s). pose proof (stype_code_small s').
    pose proof (unop_code_small op) as Hsmall.
    assert (Hop : unop.code op mod 2 ^ 56 = unop.code op).
    { apply N.mod_small. change (2 ^ 56) with 72057594037927936. lia. }
    rewrite Hop in Hkey.
    assert (Hparts : c mod 2 ^ 56 = unop.code op ∧ stype_code s = stype_code s')
      by lia.
    destruct Hparts as [Hc Hs]. apply stype_code_inj in Hs as <-.
    exists op. split; [exact Hc|].
    unfold unop_rule.
    replace (id_unop_stype (unop.code op) s) with (id_unop_stype c s).
    + by rewrite Hk.
    + rewrite !id_unop_stype_value. by rewrite Hc, Hop.
  - destruct (unop_names !! N.to_nat c); discriminate.
Qed.

Lemma typed_unary_code_is_an_operator_witness :
  unop_rule (unop.code unop.LEN) STR64 = Ok INT64
  ∧ exists op, unop.code unop.LEN mod 2 ^ 56 = unop.code op
               ∧ unop_rule (unop.code op) STR64 = Ok INT64.
Proof.
  assert (H : unop_rule (unop.code unop.LEN) STR64 = Ok INT64)
    by (by apply unop_rule_present).
  split; [exact H|].
  exact (typed_unary_code_is_an_operator _ STR64 INT64 H).
Defined.

(** X12: an operator node never resolves to a string or object type: the
    type a binary or unary node resolves to is one of the seven numeric
    storage types, whatever its operands and its operator code. *)
Theorem operator_nodes_resolve_to_numeric {ext : Externals} (wf : workframe)
    (e e1 : pexpr) (st : SType) :
  is_operator_node e = true ->
  resolve wf e = (e1, Ok st) ->
  st ∈ numeric_stypes.
Proof.
  intros Hop. destruct e as [| | lhs rhs code | | arg code | | | |];
    try discriminate; cbn [resolve].
  - destruct (resolve wf lhs) as [lhs1 [s1|ex]]; [|discriminate].
    destruct (resolve wf rhs) as [rhs1 [s2|ex]]; [|discriminate].
    intros Hres. pose proof (f_equal snd Hres) as Hrule.
    cbn [snd bind] in Hrule. unfold binop_rule in Hrule.
    destruct (binop_rules !! id_biop_stypes code s1 s2) as [st'|] eqn:Hk.
    + injection Hrule as <-. exact (binop_values_numeric _ _ Hk).
    + destruct (binop_names !! N.to_nat code); discriminate.
  - destruct (resolve wf arg) as [arg1 [s|ex]]; [|discriminate].
    intros Hres. pose proof (f_equal snd Hres) as Hrule.
    cbn [snd bind] in Hrule. unfold unop_rule in Hrule.
    destruct (unop_rules !! id_unop_stype code s) as [st'|] eqn:Hk.
    + injection Hrule as <-. exact (unop_values_numeric _ _ Hk).
    + destruct (unop_names !! N.to_nat code); discriminate.
Qed.

Lemma operator_nodes_resolve_to_numeric_witness :
  is_operator_node (expr_unaryop (unop.code unop.LEN) (literal_of STR32)) = true
  ∧ resolve (ext := stub_externals) empty_workframe
      (expr_unaryop (unop.code unop.LEN) (literal_of STR32))
    = (expr_unaryop (unop.code unop.LEN) (literal_of STR32), Ok INT32)
  ∧ INT32 ∈ numeric_stypes.
Proof.
  assert (H : resolve (ext := stub_externals) empty_workframe
                (expr_unaryop (unop.code unop.LEN) (literal_of STR32))
              = (expr_unaryop (unop.code unop.LEN) (literal_of STR32), Ok INT32)).
  { rewrite (resolve_unaryop _ _ _ _ _ (resolve_literal_of _ STR32)).
    by rewrite (unop_rule_present unop.LEN STR32 INT32 eq_refl). }
  split; [reflexivity|]. split; [exact H|].
  exact (operator_nodes_resolve_to_numeric (ext := stub_externals)
           empty_workframe
           (expr_unaryop (unop.code unop.LEN) (literal_of STR32)) _ INT32
           eq_refl H).
Defined.

(** ** Whole trees *)

Section Trees.

Context {ext : Externals}.

Lemma resolve_keeps_shape (wf : workframe) (e : pexpr) :
  own_classes e = true ->
  erase_cache (resolve wf e).1 = erase_cache e
  ∧ own_classes (resolve wf e).1 = true.
Proof.
  induction e as [| frame_id col_id sel | lhs IHl rhs IHr code | col
                 | arg IH code | arg IH st | opcode | arg _ opcode
                 | opcode arg _ params]; cbn [own_classes resolve];
    try discriminate; intros Hown.
  - unfold expr_column_resolve.
    by destruct (get_col_index wf frame_id col_id sel).
  - apply andb_true_iff in Hown as [Hl Hr].
    destruct (IHl Hl) as [IHl1 IHl2]. destruct (IHr Hr) as [IHr1 IHr2].
    destruct (resolve wf lhs) as [lhs1 [s1|ex]]; cbn [fst] in *.
    + destruct (resolve wf rhs) as [rhs1 rr]; cbn [fst erase_cache own_classes] in *.
      by rewrite IHl1, IHr1, IHl2, IHr2.
    + cbn [fst erase_cache own_classes]. by rewrite IHl1, IHl2, Hr.
  - done.
  - destruct (IH Hown) as [IH1 IH2].
    destruct (resolve wf arg) as [arg1 ra]; cbn [fst erase_cache own_classes] in *.
    by rewrite IH1.
  - destruct (IH Hown) as [IH1 IH2].
    destruct (resolve wf arg) as [arg1 ra]; cbn [fst erase_cache own_classes] in *.
    by rewrite IH1.
  - done.
Qed.

Lemma caches_stay_in_frame (wf : workframe) (e : pexpr) :
  own_classes e = true ->
  Forall (cache_in_frame wf) (column_refs e) ->
  Forall (cache_in_frame wf) (column_refs (resolve wf e).1)
  ∧ (forall st, (resolve wf e).2 = Ok st ->
       Forall (in_frame wf) (column_refs (resolve wf e).1)).
Proof.
  induction e as [| frame_id col_id sel | lhs IHl rhs IHr code | col
                 | arg IH code | arg IH st' | opcode | arg _ opcode
                 | opcode arg _ params]; cbn [own_classes resolve column_refs];
    try discriminate; intros Hown Hcache.
  - unfold expr_column_resolve.
    destruct (get_col_index wf frame_id col_id sel) as [c r] eqn:Hg.
    cbn [fst snd column_refs].
    rewrite Forall_singleton in Hcache.
    destruct (get_col_index_keeps_cache_in_frame _ _ _ _ _ _ Hg Hcache)
      as [Hkept Hreturned].
    split; [by apply Forall_singleton|].
    intros st Hst. apply Forall_singleton.
    destruct r as [i|ex]; [|discriminate Hst]. by apply (Hreturned i).
  - apply andb_true_iff in Hown as [Hl Hr].
    apply Forall_app in Hcache as [Hcl Hcr].
    destruct (IHl Hl Hcl) as [IHl1 IHl2]. destruct (IHr Hr Hcr) as [IHr1 IHr2].
    destruct (resolve wf lhs) as [lhs1 [s1|ex]]; cbn [fst snd] in *.
    + destruct (resolve wf rhs) as [rhs1 rr]; cbn [fst snd column_refs] in *.
      split; [by apply Forall_app|].
      intros st Hst. destruct rr as [s2|ex]; [|discriminate Hst].
      apply Forall_app. split; [by apply (IHl2 s1)|by apply (IHr2 s2)].
    + cbn [column_refs]. split; [by apply Forall_app|discriminate].
  - split; [constructor|intros; constructor].
  - destruct (IH Hown Hcache) as [IH1 IH2].
    destruct (resolve wf arg) as [arg1 ra]; cbn [fst snd column_refs] in *.
    split; [exact IH1|].
    intros st Hst. destruct ra as [s|ex]; [|discriminate Hst].
    by apply (IH2 s).
  - destruct (IH Hown Hcache) as [IH1 IH2].
    destruct (resolve wf arg) as [arg1 ra]; cbn [fst snd column_refs] in *.
    split; [exact IH1|].
    intros st Hst. destruct ra as [s|ex]; [|discriminate Hst].
    by apply (IH2 s).
  - split; [constructor|intros; constructor].
Qed.

Lemma mode_of_tree (wf : workframe) (e : pexpr) :
  own_classes e = true ->
  (exists mode, get_groupby_mode wf e = Ok mode)
  ∧ (get_groupby_mode wf e = Ok GtoONE <-> Forall (keyed wf) (column_refs e)).
Proof.
  induction e as [| frame_id col_id sel | lhs IHl rhs IHr code | col
                 | arg IH code | arg IH st' | opcode | arg _ opcode
                 | opcode arg _ params];
    cbn [own_classes get_groupby_mode column_refs]; try discriminate;
    intros Hown.
  - split; [eauto|].
    unfold expr_column_get_groupby_mode, keyed.
    rewrite Forall_singleton. cbn [fst snd].
    rewrite <- has_group_column_elem.
    destruct (N.eqb_spec frame_id 0);
      destruct (has_groupby wf);
      destruct (has_group_column (get_by_node wf) col_id); cbn;
      intuition congruence.
  - apply andb_true_iff in Hown as [Hl Hr].
    destruct (IHl Hl) as [[lmode Hlm] IHl']. destruct (IHr Hr) as [[rmode Hrm] IHr'].
    rewrite Forall_app, <- IHl', <- IHr', Hlm, Hrm. cbn [bind].
    rewrite mode_max_more_general. split; [eauto|].
    destruct lmode, rmode; cbn; intuition congruence.
  - split; [eauto|]. split; [constructor | reflexivity].
  - by apply IH.
  - by apply IH.
  - split; [eauto|]. split; [constructor | reflexivity].
Qed.

End Trees.

(** X13: on a tree of the node classes of base_expr.cc, [resolve] changes
    nothing but the cached column indices: the tree it leaves is the tree it
    was given up to those caches, whether it returns or throws. *)
Theorem resolve_changes_only_caches {ext : Externals} (wf : workframe)
    (e : pexpr) :
  own_classes e = true ->
  erase_cache (resolve wf e).1 = erase_cache e
  ∧ own_classes (resolve wf e).1 = true.
Proof. apply resolve_keeps_shape. Qed.

Lemma resolve_changes_only_caches_witness :
  own_classes key_equals_sum = true
  ∧ (resolve (ext := stub_externals) five_column_workframe key_equals_sum).1
    ≠ key_equals_sum
  ∧ erase_cache
      (resolve (ext := stub_externals) five_column_workframe key_equals_sum).1
    = erase_cache key_equals_sum.
Proof.
  split; [reflexivity|]. split.
  - intros Heq. apply (f_equal column_refs) in Heq.
    cbn [key_equals_sum expr_binaryop resolve fst] in Heq.
    discriminate Heq.
  - exact (proj1 (resolve_changes_only_caches (ext := stub_externals)
             five_column_workframe key_equals_sum eq_refl)).
Defined.

(** X14: [resolve] never leaves in a column reference an index outside the
    frame referred to.  On a tree of the node classes of base_expr.cc in
    which every reference is unresolved, as the factory builds it, or holds a
    column of its frame, the same is true after [resolve], whether it returns
    or throws; and when it returns a type no reference is left unresolved,
    so that every column [evaluate_eager] reads is a column of its frame. *)
Theorem resolve_keeps_references_in_frame {ext : Externals} (wf : workframe)
    (e : pexpr) :
  own_classes e = true ->
  Forall (cache_in_frame wf) (column_refs e) ->
  Forall (cache_in_frame wf) (column_refs (resolve wf e).1)
  ∧ (forall st, (resolve wf e).2 = Ok st ->
       Forall (in_frame wf) (column_refs (resolve wf e).1)).
Proof. apply caches_stay_in_frame. Qed.

(** X15: a tree of the node classes of base_expr.cc, without null operands,
    reports a mode, and the mode is PerGroup exactly when every column
    reference in it holds a grouping key column of frame 0 under an active
    grouping; without a grouping, exactly when it has no column reference at
    all. *)
Theorem tree_is_per_group_iff_columns_keyed {ext : Externals} (wf : workframe)
    (e : pexpr) :
  own_classes e = true ->
  (get_groupby_mode wf e = Ok GtoONE <-> Forall (keyed wf) (column_refs e))
  ∧ (has_groupby wf = false ->
     get_groupby_mode wf e = Ok GtoONE <-> column_refs e = [])
  ∧ (get_groupby_mode wf e = Ok GtoONE ∨ get_groupby_mode wf e = Ok GtoALL).
Proof.
  intros Hown. destruct (mode_of_tree wf e Hown) as [[mode Hreturns] Hmode].
  split; [exact Hmode|]. split.
  - intros Hg. rewrite Hmode. split.
    + destruct (column_refs e) as [|ref refs]; [reflexivity|].
      intros Hall. apply Forall_cons in Hall as [(_ & Hgrouped & _) _].
      congruence.
    + intros ->. constructor.
  - rewrite Hreturns. destruct mode; auto.
Qed.

Lemma resolve_keeps_references_in_frame_witness :
  (own_classes key_equals_sum = true
   ∧ Forall (cache_in_frame five_column_workframe) (column_refs key_equals_sum))
  ∧ resolve (ext := stub_externals) five_column_workframe key_equals_sum
    = (key_equals_sum_resolved, Ok BOOL)
  ∧ Forall (cache_in_frame five_column_workframe) [(0, 4); (0, 0)]
  ∧ Forall (in_frame five_column_workframe) [(0, 4); (0, 0)].
Proof.
  assert (Hfresh : Forall (cache_in_frame five_column_workframe)
                     (column_refs key_equals_sum)).
  { repeat constructor. }
  assert (H : resolve (ext := stub_externals) five_column_workframe key_equals_sum
              = (key_equals_sum_resolved, Ok BOOL)).
  { vm_compute. reflexivity. }
  pose proof (resolve_keeps_references_in_frame (ext := stub_externals)
                five_column_workframe key_equals_sum eq_refl Hfresh)
    as [Hkept Hreturned].
  specialize (Hreturned BOOL). rewrite H in Hkept, Hreturned.
  split; [by split|]. split; [exact H|].
  split; [exact Hkept|exact (Hreturned eq_refl)].
Defined.

Lemma tree_is_per_group_iff_columns_keyed_witness :
  own_classes (expr_cast (ExprColumn 0 4 (PyStr "e")) INT8) = true
  ∧ Forall (keyed five_column_workframe) [(0, 4)]
  ∧ get_groupby_mode (ext := stub_externals) five_column_workframe
      (expr_cast (ExprColumn 0 4 (PyStr "e")) INT8) = Ok GtoONE.
Proof.
  assert (Hk : Forall (keyed five_column_workframe) [(0, 4)]).
  { constructor; [|constructor]. repeat split. by_evaluation. }
  split; [reflexivity|]. split; [exact Hk|].
  exact (proj2 (proj1 (tree_is_per_group_iff_columns_keyed
           (ext := stub_externals) five_column_workframe
           (expr_cast (ExprColumn 0 4 (PyStr "e")) INT8) eq_refl)) Hk).
Defined.

(** ** Evaluating a column reference *)

Lemma frame_lookup (wf : workframe) (frame_id : N) (dt : DataTable) :
  get_datatable wf frame_id = Ok dt ->
  exists ri, wf_frames wf !! N.to_nat frame_id = Some (dt, ri)
             ∧ get_rowindex wf frame_id = Ok ri.
Proof.
  unfold get_datatable, get_rowindex.
  destruct (wf_frames wf !! N.to_nat frame_id) as [[dt' ri]|]; [|discriminate].
  intros [= ->]. eauto.
Qed.

(** X16: a column reference that [resolve] has typed evaluates to a view of
    the column it refers to: the column's storage type is the type
    [resolve] returned, the data are shared, and the row selection is the
    product of the frame's selection with the column's own when the frame
    has one, the column's own otherwise. *)
Theorem resolved_reference_evaluates {ext : Externals} (wf : workframe)
    (frame_id col_id : N) (sel : robj) (e1 : pexpr) (st : SType) :
  resolve wf (ExprColumn frame_id col_id sel) = (e1, Ok st) ->
  exists dt ri c rcol res,
    wf_frames wf !! N.to_nat frame_id = Some (dt, ri)
    ∧ e1 = ExprColumn frame_id c sel
    ∧ columns_at dt c = Ok rcol
    ∧ evaluate_eager wf e1 = Ok (Some res)
    ∧ col_stype res = st
    ∧ col_data res = col_data rcol
    ∧ col_rowindex res = match ri with
                         | Some _ => _product ri (col_rowindex rcol)
                         | None => col_rowindex rcol
                         end.
Proof.
  cbn [resolve]. unfold expr_column_resolve.
  destruct (get_col_index wf frame_id col_id sel) as [c r] eqn:Hg.
  intros Hres. pose proof (f_equal fst Hres) as He1.
  pose proof (f_equal snd Hres) as Hst. cbn [fst snd] in He1, Hst. subst e1.
  destruct r as [i|ex]; [|discriminate]. cbn [bind] in Hst.
  destruct (get_datatable wf frame_id) as [dt|ex] eqn:Hdt; [|discriminate].
  cbn [bind] in Hst.
  destruct (columns_at dt i) as [rcol|ex] eqn:Hc; [|discriminate].
  cbn [bind] in Hst. injection Hst as <-.
  pose proof (get_col_index_returns_cache _ _ _ _ _ _ Hg) as ->.
  destruct (frame_lookup _ _ _ Hdt) as (ri & Hl & Hri).
  exists dt, ri, i, rcol.
  exists (match ri with
          | Some _ => shallowcopy_with rcol (_product ri (col_rowindex rcol))
          | None => shallowcopy rcol
          end).
  split; [exact Hl|]. split; [reflexivity|]. split; [exact Hc|].
  split.
  - cbn [evaluate_eager]. unfold expr_column_evaluate_eager.
    rewrite Hdt. cbn [bind]. rewrite Hc. cbn [bind]. rewrite Hri. cbn [bind].
    destruct ri as [rows|].
    + by rewrite bool_decide_eq_true_2 by eauto.
    + rewrite bool_decide_eq_false_2; [reflexivity|]. by intros [? ?].
  - by destruct ri.
Qed.

Lemma resolved_reference_evaluates_witness :
  resolve (ext := stub_externals) selected_workframe (expr_column 0 (PyInt (-2)))
  = (ExprColumn 0 3 (PyInt (-2)), Ok STR32)
  ∧ evaluate_eager (ext := stub_externals) selected_workframe
      (ExprColumn 0 3 (PyInt (-2)))
    = Ok (Some (mkColumn STR32 [7; 8]%Z (Some [1]))).
Proof.
  assert (H : resolve (ext := stub_externals) selected_workframe
                (expr_column 0 (PyInt (-2)))
              = (ExprColumn 0 3 (PyInt (-2)), Ok STR32)) by reflexivity.
  split; [exact H|].
  destruct (resolved_reference_evaluates (ext := stub_externals)
              selected_workframe 0 size_minus_one (PyInt (-2)) _ STR32 H)
    as (dt & ri & c & rcol & res & Hl & He & Hc & Hev & _).
  injection He as <-. injection Hl as <- <-.
  injection Hc as <-. rewrite Hev. f_equal.
  cbn in Hev. by injection Hev as <-.
Defined.

(** X17: a column reference that has not been resolved cannot be evaluated:
    [evaluate_eager] indexes the columns of the frame with [size_t(-1)],
    which is beyond the last column of any frame. *)
Theorem unresolved_reference_reads_out_of_bounds {ext : Externals}
    (wf : workframe) (frame_id : N) (sel : robj) :
  (forall dt, get_datatable wf frame_id = Ok dt -> ncols dt < 2 ^ 64) ->
  evaluate_eager wf (expr_column frame_id sel) = Raise UndefinedBehaviour.
Proof.
  intros Hsize. unfold expr_column. cbn [evaluate_eager].
  unfold expr_column_evaluate_eager.
  destruct (get_datatable wf frame_id) as [dt|ex] eqn:Hdt.
  - cbn [bind]. specialize (Hsize dt eq_refl).
    unfold columns_at.
    rewrite (proj2 (lookup_ge_None (dt_columns dt) (N.to_nat size_minus_one))).
    + reflexivity.
    + unfold ncols in Hsize. unfold size_minus_one, size_modulus.
      change (2 ^ 64) with 18446744073709551616 in *. lia.
  - unfold get_datatable in Hdt.
    destruct (wf_frames wf !! N.to_nat frame_id) as [[dt ri]|];
      [discriminate|]. by injection Hdt as <-.
Qed.

Lemma unresolved_reference_reads_out_of_bounds_witness :
  (forall dt, get_datatable five_column_workframe 0 = Ok dt -> ncols dt < 2 ^ 64)
  ∧ evaluate_eager (ext := stub_externals) five_column_workframe
      (expr_column 0 (PyInt 0)) = Raise UndefinedBehaviour.
Proof.
  assert (H : forall dt, get_datatable five_column_workframe 0 = Ok dt ->
                         ncols dt < 2 ^ 64).
  { intros dt Hdt. injection Hdt as <-. reflexivity. }
  split; [exact H|].
  exact (unresolved_reference_reads_out_of_bounds (ext := stub_externals)
           five_column_workframe 0 (PyInt 0) H).
Defined.

(** ** The factory and the heap *)

Lemma only_releases_lift {A : Type} (va : list robj) (r : result A) :
  only_releases va (lift r).
Proof. intros h h' r' [= <- _] a. auto. Qed.

Lemma only_releases_bind {A B : Type} (va : list robj) (m : factory A)
    (k : A -> factory B) :
  only_releases va m ->
  (forall x, only_releases va (k x)) ->
  only_releases va (fbind m k).
Proof.
  intros Hm Hk h h' r. unfold fbind.
  destruct (m h) as [h1 [x|ex]] eqn:Hmh.
  - intros Hkx a.
    destruct (Hm _ _ _ Hmh a) as [Hm1 Hm2].
    destruct (Hk x _ _ _ Hkx a) as [Hk1 Hk2].
    split.
    + intros Hna. by rewrite (Hk1 Hna), (Hm1 Hna).
    + destruct Hk2 as [Hk2|Hk2]; [rewrite Hk2; exact Hm2 | by right].
  - intros [= <- _] a. exact (Hm _ _ _ Hmh a).
Qed.

Lemma only_releases_base_expr_arg (va : list robj) (i : nat) :
  only_releases va (base_expr_arg va i).
Proof.
  unfold base_expr_arg, va_at.
  destruct (va !! i) as [o|] eqn:Hi; [|apply only_releases_lift].
  destruct o as [z|s|v|]; try apply only_releases_lift.
  intros h h' r. cbn [to_base_expr]. unfold release.
  destruct (h !! v) as [ptr|] eqn:Hv.
  - intros [= <- _] a. destruct (decide (v = a)) as [->|Hne].
    + rewrite lookup_insert_eq. split; [|by right].
      intros Hna. exfalso. apply Hna. eapply list_elem_of_lookup_2, Hi.
    + rewrite lookup_insert_ne by done. auto.
  - intros [= <- _] a. auto.
Qed.

Section FactoryHeap.

Context {ext : Externals}.

Lemma only_releases_build (opcode : N) (va : list robj) :
  only_releases va (build opcode va).
Proof.
  unfold build.
  destruct (switch_case opcode) as [[]|];
    repeat first
      [ apply only_releases_lift
      | apply only_releases_base_expr_arg
      | apply only_releases_bind; [|intros ?] ].
Qed.

End FactoryHeap.

(** X18: whatever its arguments, the factory touches no object but the one
    it initialises and the [py::base_expr] objects among its arguments, and
    all it does to those is to empty them; when it throws, the object it was
    initialising holds no node. *)
Theorem factory_only_empties_arguments {ext : Externals} (self : N)
    (args0 : robj) (va : list robj) (h h' : heap) (r : result unit) :
  m__init__ self args0 va h = (h', r) ->
  (forall ex, r = Raise ex -> h' !! self = Some null_expr)
  ∧ (forall a, a ≠ self -> PyBaseExpr a ∉ va -> h' !! a = h !! a)
  ∧ (forall a, a ≠ self -> h' !! a = h !! a ∨ h' !! a = Some null_expr).
Proof.
  unfold m__init__, fbind, lift.
  destruct (to_size_t args0) as [opcode|ex0].
  - destruct (build opcode va (<[self := null_expr]> h)) as [h1 [e|ex1]] eqn:Hb;
      intros [= <- <-]; pose proof (only_releases_build opcode va _ _ _ Hb) as Hrel.
    + split; [discriminate|]. split.
      * intros a Hne Hna. rewrite lookup_insert_ne by done.
        rewrite (proj1 (Hrel a) Hna). by rewrite lookup_insert_ne.
      * intros a Hne. rewrite lookup_insert_ne by done.
        destruct (proj2 (Hrel a)) as [Ha|Ha]; rewrite Ha; [left|by right].
        by rewrite lookup_insert_ne.
    + split; [|split].
      * intros _ _. destruct (proj2 (Hrel self)) as [Ha|Ha]; rewrite Ha;
          [apply lookup_insert_eq | reflexivity].
      * intros a Hne Hna. rewrite (proj1 (Hrel a) Hna).
        by rewrite lookup_insert_ne.
      * intros a Hne. destruct (proj2 (Hrel a)) as [Ha|Ha]; rewrite Ha;
          [left|by right]. by rewrite lookup_insert_ne.
  - intros [= <- <-]. split; [|split].
    + intros _ _. apply lookup_insert_eq.
    + intros a Hne _. by rewrite lookup_insert_ne.
    + intros a Hne. left. by rewrite lookup_insert_ne.
Qed.

Lemma factory_only_empties_arguments_witness :
  m__init__ (ext := stub_externals) 11 (PyInt 4) [PyInt 2; PyBaseExpr 10]
    one_literal_heap
  = (<[11 := expr_unaryop 2 (literal_of INT32)]>
       (<[10 := null_expr]> (<[11 := null_expr]> one_literal_heap)), Ok tt)
  ∧ (forall a, a ≠ 11 -> PyBaseExpr a ∉ [PyInt 2; PyBaseExpr 10] ->
       (<[11 := expr_unaryop 2 (literal_of INT32)]>
          (<[10 := null_expr]> (<[11 := null_expr]> one_literal_heap))) !! a
       = one_literal_heap !! a).
Proof.
  assert (H : m__init__ (ext := stub_externals) 11 (PyInt 4)
                [PyInt 2; PyBaseExpr 10] one_literal_heap
              = (<[11 := expr_unaryop 2 (literal_of INT32)]>
                   (<[10 := null_expr]> (<[11 := null_expr]> one_literal_heap)),
                 Ok tt)) by reflexivity.
  split; [exact H|].
  exact (proj1 (proj2 (factory_only_empties_arguments (ext := stub_externals)
           11 (PyInt 4) [PyInt 2; PyBaseExpr 10] one_literal_heap _ _ H))).
Defined.

(** X19: building a binary node moves the two operands out of the objects
    that held them: the node built owns what they held and both are left
    empty; when the two arguments are one and the same object, the right
    operand of the node is a null pointer. *)
Theorem binary_node_takes_its_operands {ext : Externals} (self a1 a2 : N)
    (args0 code : robj) (c : N) (e1 e2 : pexpr) (h : heap) :
  to_size_t args0 = Ok (exprCode_code BINOP) ->
  to_size_t code = Ok c ->
  self ≠ a1 -> self ≠ a2 ->
  h !! a1 = Some e1 ->
  h !! a2 = Some e2 ->
  exists h',
    m__init__ self args0 [code; PyBaseExpr a1; PyBaseExpr a2] h = (h', Ok tt)
    ∧ h' !! self
      = Some (expr_binaryop c e1 (if decide (a1 = a2) then null_expr else e2))
    ∧ h' !! a1 = Some null_expr
    ∧ h' !! a2 = Some null_expr.
Proof.
  intros Hargs Hcode Hs1 Hs2 H1 H2.
  unfold m__init__, fbind, lift. rewrite Hargs.
  unfold build. rewrite switch_case_code.
  unfold fbind, lift, base_expr_arg, va_at.
  rewrite (check_args_count_match [code; PyBaseExpr a1; PyBaseExpr a2] 3 eq_refl).
  cbn [lookup list_lookup bind]. rewrite Hcode.
  cbn [to_base_expr]. unfold release.
  rewrite (lookup_insert_ne h self a1) by done. rewrite H1.
  destruct (decide (a1 = a2)) as [<-|Hne].
  - rewrite lookup_insert_eq. eexists. split; [reflexivity|].
    rewrite lookup_insert_eq. split; [reflexivity|].
    rewrite lookup_insert_ne by done. by rewrite lookup_insert_eq.
  - rewrite (lookup_insert_ne _ a1 a2) by done.
    rewrite (lookup_insert_ne h self a2) by done. rewrite H2.
    eexists. split; [reflexivity|].
    rewrite lookup_insert_eq. split; [reflexivity|]. split.
    + rewrite lookup_insert_ne by done. rewrite lookup_insert_ne by done.
      by rewrite lookup_insert_eq.
    + rewrite lookup_insert_ne by done. by rewrite lookup_insert_eq.
Qed.

Lemma binary_node_takes_its_operands_witness :
  (to_size_t (PyInt 2) = Ok (exprCode_code BINOP)
   ∧ to_size_t (PyInt 1) = Ok 1
   ∧ 11 ≠ 10
   ∧ one_literal_heap !! 10 = Some (literal_of INT32))
  ∧ exists h',
      m__init__ (ext := stub_externals) 11 (PyInt 2)
        [PyInt 1; PyBaseExpr 10; PyBaseExpr 10] one_literal_heap = (h', Ok tt)
      ∧ h' !! 11 = Some (expr_binaryop 1 (literal_of INT32) null_expr)
      ∧ h' !! 10 = Some null_expr
      ∧ h' !! 10 = Some null_expr.
Proof.
  assert (Hne : 11 ≠ 10) by discriminate.
  split; [by repeat split|].
  exact (binary_node_takes_its_operands (ext := stub_externals) 11 10 10
           (PyInt 2) (PyInt 1) 1 (literal_of INT32) (literal_of INT32)
           one_literal_heap eq_refl eq_refl Hne Hne eq_refl eq_refl).
Defined.

(** X20: an expression code that is none of the node kinds raises nothing:
    the arguments are not even counted, and the object is left holding no
    node. *)
Theorem unknown_node_kind_builds_nothing {ext : Externals} (self opcode : N)
    (args0 : robj) (va : list robj) (h : heap) :
  to_size_t args0 = Ok opcode ->
  (forall c, exprCode_code c ≠ opcode) ->
  m__init__ self args0 va h = (<[self := null_expr]> h, Ok tt).
Proof.
  intros Hargs Hnone. unfold m__init__, fbind, lift. rewrite Hargs.
  assert (Hsw : switch_case opcode = None).
  { unfold switch_case, all_exprCodes. cbn [List.find].
    by rewrite !(proj2 (N.eqb_neq _ _) (Hnone _)). }
  unfold build. rewrite Hsw. unfold lift. by rewrite insert_insert_eq.
Qed.

Lemma unknown_node_kind_builds_nothing_witness :
  to_size_t (PyInt 0) = Ok 0
  ∧ (forall c, exprCode_code c ≠ 0)
  ∧ m__init__ (ext := stub_externals) 11 (PyInt 0) [PyOther; PyOther; PyOther]
      one_literal_heap
    = (<[11 := null_expr]> one_literal_heap, Ok tt).
Proof.
  assert (H : forall c, exprCode_code c ≠ 0) by (intros []; discriminate).
  split; [reflexivity|]. split; [exact H|].
  exact (unknown_node_kind_builds_nothing (ext := stub_externals) 11 0
           (PyInt 0) [PyOther; PyOther; PyOther] one_literal_heap eq_refl H).
Defined.

(** ** The COUNT reduction, per group *)

Lemma group_sizes_telescope (first : Z) (rest : list Z) :
  sum_Z (group_sizes (first :: rest)) = (List.last (first :: rest) 0 - first)%Z.
Proof.
  revert first. induction rest as [|next rest IH]; intros first.
  - cbn. lia.
  - change (group_sizes (first :: next :: rest))
      with ((next - first)%Z :: group_sizes (next :: rest)).
    change (List.last (first :: next :: rest) 0%Z)
      with (List.last (next :: rest) 0%Z).
    cbn [sum_Z foldr]. fold (sum_Z (group_sizes (next :: rest))).
    rewrite IH. lia.
Qed.

Lemma count_grouped_run {ext : Externals} (wf : workframe) :
  has_groupby wf = true ->
  valid_groupby (get_groupby wf) ->
  evaluate_eager wf (expr_reduce_nullary COUNT)
  = Ok (Some (mkColumn INT32 (group_sizes (offsets_r (get_groupby wf))) None)).
Proof.
  intros Hg [Hlen Hfit].
  assert (Hrun : count_loop (offsets_r (get_groupby wf)) 0
                   (N.to_nat (ngroups (get_groupby wf)))
                   (replicate (N.to_nat (ngroups (get_groupby wf))) 0%Z)
                 = Ok (group_sizes (offsets_r (get_groupby wf)))).
  { rewrite <- (group_sizes_fit _ Hfit).
    apply (count_loop_writes _ [] _ [] _ eq_refl);
      [apply length_replicate | exact Hlen]. }
  cbn. unfold expr_reduce_nullary_evaluate_eager. cbn.
  rewrite Hg. cbn. by rewrite Hrun.
Qed.

(** X21: under a grouping the counts COUNT returns add up to the span of the
    group boundaries, the last offset minus the first: every row between
    the two is counted in exactly one group. *)
Theorem group_counts_add_up {ext : Externals} (wf : workframe) :
  has_groupby wf = true ->
  valid_groupby (get_groupby wf) ->
  exists res,
    evaluate_eager wf (expr_reduce_nullary COUNT) = Ok (Some res)
    ∧ sum_Z (col_data res)
      = (List.last (offsets_r (get_groupby wf)) 0
         - hd 0 (offsets_r (get_groupby wf)))%Z.
Proof.
  intros Hg Hvalid. eexists. split; [by apply count_grouped_run|].
  cbn [col_data]. destruct Hvalid as [Hlen _].
  destruct (offsets_r (get_groupby wf)) as [|first rest]; [discriminate|].
  apply group_sizes_telescope.
Qed.

Lemma group_counts_add_up_witness :
  has_groupby three_groups = true
  ∧ valid_groupby (get_groupby three_groups)
  ∧ exists res,
      evaluate_eager (ext := stub_externals) three_groups
        (expr_reduce_nullary COUNT) = Ok (Some res)
      ∧ sum_Z (col_data res) = (10 - 0)%Z.
Proof.
  assert (Hv : valid_groupby (get_groupby three_groups)).
  { split; [reflexivity|]. repeat constructor; cbn; lia. }
  split; [reflexivity|]. split; [exact Hv|].
  exact (group_counts_add_up (ext := stub_externals) three_groups eq_refl Hv).
Defined.

(** ** Columns of Python objects *)

Section ObjectColumns.

Import PyObjectColumn.

Lemma occurrences_cons (a : N) (o : option N) (l : list (option N)) :
  occurrences a (o :: l)
  = ((if decide (o = Some a) then 1 else 0) + occurrences a l)%Z.
Proof.
  unfold occurrences. rewrite filter_cons.
  destruct (decide (o = Some a)); cbn [length]; lia.
Qed.

(** The loop on the rows [rows], which follow [before] in the buffer. *)
Lemma incref_loop_counts (rows : list (option N)) :
  forall (before after : list (option N)) (rc : refcounts),
    (forall a, Some a ∈ rows -> is_Some (rc !! a)) ->
    (forall a n, rc !! a = Some n ->
       (0 <= n ∧ n + Z.of_nat (length rows) < 2 ^ 63)%Z) ->
    exists rc',
      incref_loop (before ++ rows ++ after) (length before) (length rows) rc
      = Ok rc'
      ∧ forall a, rc' !! a = (fun n => (n + occurrences a rows)%Z) <$> rc !! a.
Proof.
  induction rows as [|o rows IH]; intros before after rc Hlive Hfit.
  - exists rc. split; [reflexivity|]. intros a.
    destruct (rc !! a) as [n|]; cbn; [f_equal; unfold occurrences; cbn; lia|done].
  - change ((o :: rows) ++ after) with (o :: rows ++ after).
    cbn [incref_loop length].
    rewrite (list_lookup_middle before (rows ++ after) o _ eq_refl).
    assert (Hstep : exists rc1,
              Py_XINCREF o rc = Ok rc1
              ∧ (forall a, rc1 !! a
                   = (fun n => (n + (if decide (o = Some a) then 1 else 0))%Z)
                     <$> rc !! a)).
    { destruct o as [b|].
      - destruct (Hlive b) as [n Hn]; [left|].
        exists (<[b := wrap64 (n + 1)]> rc). cbn. rewrite Hn. split; [done|].
        intros a. destruct (decide (Some b = Some a)) as [[= ->]|Hne].
        + rewrite lookup_insert_eq, Hn. cbn. f_equal.
          apply wrap64_small. specialize (Hfit a n Hn). cbn [length] in Hfit. lia.
        + rewrite lookup_insert_ne by congruence.
          destruct (rc !! a); cbn; [f_equal; lia|done].
      - exists rc. split; [done|]. intros a.
        destruct (decide (None = Some a)) as [?|_]; [discriminate|].
        destruct (rc !! a); cbn; [f_equal; lia|done]. }
    destruct Hstep as (rc1 & -> & Hrc1). cbn [bind].
    replace (S (length before)) with (length (before ++ [o]))
      by (rewrite length_app; cbn; lia).
    replace (before ++ o :: rows ++ after) with ((before ++ [o]) ++ rows ++ after)
      by (rewrite <- app_assoc; reflexivity).
    destruct (IH (before ++ [o]) after rc1) as (rc' & Hrun & Hrc').
    + intros a Ha. rewrite Hrc1. apply fmap_is_Some, Hlive. by right.
    + intros a n Hn. rewrite Hrc1 in Hn.
      destruct (rc !! a) as [m|] eqn:Hm; [|discriminate]. cbn in Hn.
      injection Hn as <-. specialize (Hfit a m Hm). cbn [length] in Hfit.
      destruct (decide (o = Some a)); lia.
    + exists rc'. split; [exact Hrun|]. intros a.
      rewrite Hrc', Hrc1, occurrences_cons.
      destruct (rc !! a); cbn; [f_equal; lia|done].
Qed.

End ObjectColumns.

(** X22: [cast_into] of a column of Python objects copies the buffer of
    pointers into the target and takes one new reference for each non-null
    pointer among the rows: the count of every object grows by the number of
    rows that hold it, null rows are skipped, and no count is dropped. *)
Theorem cast_into_takes_one_reference_per_row (this target : PyObjectColumn.t)
    (rc : PyObjectColumn.refcounts) :
  PyObjectColumn.castable this target rc ->
  exists data rc',
    PyObjectColumn.cast_into this target rc
    = Ok (PyObjectColumn.mk (PyObjectColumn.nrows target) data, rc')
    ∧ take (length (PyObjectColumn.elements this)) data
      = PyObjectColumn.elements this
    ∧ length data = length (PyObjectColumn.elements target)
    ∧ forall a,
        rc' !! a
        = (fun n => (n + PyObjectColumn.occurrences a
                           (take (Z.to_nat (PyObjectColumn.nrows this))
                                 (PyObjectColumn.elements this)))%Z)
          <$> rc !! a.
Proof.
  intros (Hrows & Hroom & Hlive & Hfit).
  set (n := Z.to_nat (PyObjectColumn.nrows this)).
  set (src := PyObjectColumn.elements this) in *.
  assert (Hn : (n <= length src)%nat) by (unfold n; lia).
  destruct (incref_loop_counts (take n src) [] (drop n src) rc)
    as (rc' & Hrun & Hrc').
  - intros a Ha. apply Hlive. exact (subseteq_take n src _ Ha).
  - intros a m Hm. specialize (Hfit a m Hm). rewrite length_take. lia.
  - cbn [app length] in Hrun. rewrite take_drop in Hrun.
    rewrite length_take, Nat.min_l in Hrun by exact Hn.
    exists (src ++ drop (length src) (PyObjectColumn.elements target)), rc'.
    split; [|split; [|split]].
    + unfold PyObjectColumn.cast_into. fold src. fold n. rewrite Hrun.
      cbn [bind]. unfold PyObjectColumn.memcpy. fold src.
      by rewrite (proj2 (Nat.leb_le _ _) Hroom).
    + by rewrite take_app_length.
    + rewrite length_app, length_drop. lia.
    + exact Hrc'.
Qed.

Lemma cast_into_takes_one_reference_per_row_witness :
  PyObjectColumn.castable three_objects blank_target two_counts
  ∧ exists data rc',
      PyObjectColumn.cast_into three_objects blank_target two_counts
      = Ok (PyObjectColumn.mk 3 data, rc')
      ∧ rc' !! 20 = Some 3%Z
      ∧ rc' !! 21 = Some 7%Z.
Proof.
  assert (Hc : PyObjectColumn.castable three_objects blank_target two_counts).
  { split; [cbn; lia|]. split; [cbn; lia|]. split.
    - intros a Ha. apply list_elem_of_In in Ha. cbn in Ha.
      destruct Ha as [Ha|[Ha|[Ha|[Ha|[]]]]]; try discriminate;
        injection Ha as <-; by eexists.
    - intros a n Hn. unfold two_counts in Hn.
      apply lookup_insert_Some in Hn as [[<- <-]|[_ Hn]]; [cbn; lia|].
      apply lookup_singleton_Some in Hn as [<- <-]. cbn. lia. }
  split; [exact Hc|].
  destruct (cast_into_takes_one_reference_per_row three_objects blank_target
              two_counts Hc) as (data & rc' & Hrun & _ & _ & Hrc').
  exists data, rc'. split; [exact Hrun|].
  split; rewrite Hrc'; reflexivity.
Defined.

(** ** Negated expressions *)

